(** * Archive manager of the FS service (core/hle/service/fs/archive.cpp)

    A shallow embedding of the file and directory command dispatchers
    ([File::SyncRequest], [Directory::SyncRequest]) and of the archive
    registry and handle table ([RegisterArchiveType], [OpenArchive],
    [CloseArchive], [FormatArchive], the two rename operations and
    [ArchiveInit]), followed by the properties proved about them.

    Conventions.  Fixed-width unsigned integers are kept in [Z] and every
    conversion or store wraps explicitly ([u32], [u64]).  Virtual calls into
    storage backends, the emulated memory and the kernel are functions over
    an abstract [World] that is threaded through every call.  Logging is not
    modelled. *)

From stdpp Require Import gmap list strings functions.

Local Open Scope Z_scope.

(** ** Machine integers *)

Definition u32 (z : Z) : Z := z mod 2 ^ 32.
Definition u64 (z : Z) : Z := z mod 2 ^ 64.

(** ** Result codes *)

(** Modelled from the spec: core/hle/result.h is not part of the sources.
    A result code is the 4-field tuple (description, module, summary,
    level); the enumerators listed are the ones archive.cpp names. *)
Module ErrorDescription.
Inductive t := Success | FS_NotFound | NoData | NotImplemented | InvalidHandle | NotFound.
End ErrorDescription.

Module ErrorModule.
Inductive t := Common | FS.
End ErrorModule.

Module ErrorSummary.
Inductive t := Success | NothingHappened | NotFound | NotSupported | InvalidArgument | Canceled.
End ErrorSummary.

Module ErrorLevel.
Inductive t := Success | Status | Permanent.
End ErrorLevel.

Record ResultCode := mkResultCode {
  description : ErrorDescription.t;
  module : ErrorModule.t;
  summary : ErrorSummary.t;
  level : ErrorLevel.t
}.

(** Modelled from the spec: [RESULT_SUCCESS] of core/hle/result.h, the
    success sentinel (every field at its Success/zero enumerator). *)
Definition RESULT_SUCCESS : ResultCode :=
  mkResultCode ErrorDescription.Success ErrorModule.Common
               ErrorSummary.Success ErrorLevel.Success.

(** Modelled from the spec: [UnimplementedFunction] of core/hle/result.h,
    the generic Unimplemented error of a given module. *)
Definition UnimplementedFunction (m : ErrorModule.t) : ResultCode :=
  mkResultCode ErrorDescription.NotImplemented m
               ErrorSummary.NotSupported ErrorLevel.Permanent.

(** Returned when a function is passed an invalid handle. *)
Definition ERR_INVALID_HANDLE : ResultCode :=
  mkResultCode ErrorDescription.InvalidHandle ErrorModule.FS
               ErrorSummary.InvalidArgument ErrorLevel.Permanent.

(** The 32-bit word [code.raw] that a result code occupies in a command
    buffer.  The bit layout lives in core/hle/result.h; the dispatchers only
    copy that word, so it is an interface. *)
Class ResultEncoding := raw : ResultCode → Z.

(** Modelled from the spec: [ResultVal<T>] of core/hle/result.h, a result
    value carrying either data ([MakeResult]) or the code of an error. *)
Inductive ResultVal (A : Type) :=
  | MakeResult (a : A)
  | Failed (code : ResultCode).
Arguments MakeResult {A} a.
Arguments Failed {A} code.

(** Modelled from the spec: [FileSys::Path] (core/file_sys/archive_backend.h)
    is an opaque addressing blob of empty, raw binary or text form, carried
    unchanged to the backend. *)
Inductive Path :=
  | EmptyPath
  | BinaryPath (blob : list Z)
  | TextPath (text : string).

(** ** Command tables *)

Module FileCommand.
Inductive t :=
  | Dummy1 | Control | OpenSubFile | Read | Write | GetSize | SetSize
  | GetAttributes | SetAttributes | Close | Flush | SetPriority | GetPriority
  | OpenLinkFile.

Definition code (c : t) : Z :=
  match c with
  | Dummy1 => 0x000100C6
  | Control => 0x040100C4
  | OpenSubFile => 0x08010100
  | Read => 0x080200C2
  | Write => 0x08030102
  | GetSize => 0x08040000
  | SetSize => 0x08050080
  | GetAttributes => 0x08060000
  | SetAttributes => 0x08070040
  | Close => 0x08080000
  | Flush => 0x08090000
  | SetPriority => 0x080A0040
  | GetPriority => 0x080B0000
  | OpenLinkFile => 0x080C0000
  end.

Definition all : list t :=
  [Dummy1; Control; OpenSubFile; Read; Write; GetSize; SetSize; GetAttributes;
   SetAttributes; Close; Flush; SetPriority; GetPriority; OpenLinkFile].

(** [static_cast<FileCommand>(word)]: the enumerator carrying that value, if
    there is one. *)
Definition of_word (w : Z) : option t :=
  List.find (λ c, bool_decide (code c = w)) all.
End FileCommand.

Module DirectoryCommand.
Inductive t := Dummy1 | Control | Read | Close.

Definition code (c : t) : Z :=
  match c with
  | Dummy1 => 0x000100C6
  | Control => 0x040100C4
  | Read => 0x08010042
  | Close => 0x08020000
  end.

Definition all : list t := [Dummy1; Control; Read; Close].

Definition of_word (w : Z) : option t :=
  List.find (λ c, bool_decide (code c = w)) all.
End DirectoryCommand.

(** The thread's command buffer: an array of 32-bit words, read and
    written in place by index. *)
Abbreviation CommandBuffer := (nat → Z).

(** ** File and directory resources *)

Section Resources.
Variable World : Type.

(** The operations of [FileSys::FileBackend] the dispatcher calls.  A
    buffer pointer is passed as the guest address it was obtained from
    ([Memory::GetPointer(address)]); the memory itself is part of [World].
    [Read] and [Write] return a [size_t] byte count. *)
Record FileBackend := {
  fb_Read : Z → Z → Z → World → Z * World;
  fb_Write : Z → Z → Z → Z → World → Z * World;
  fb_GetSize : World → Z * World;
  fb_SetSize : Z → World → bool * World;
  fb_Close : World → bool * World;
  fb_Flush : World → World
}.

(** The operations of [FileSys::DirectoryBackend] the dispatcher calls. *)
Record DirectoryBackend := {
  db_Read : Z → Z → World → Z * World;
  db_Close : World → bool * World
}.

Record File := {
  file_path : Path;
  priority : Z;
  file_backend : FileBackend
}.

Record Directory := {
  directory_path : Path;
  directory_backend : DirectoryBackend
}.

(** [File::File]: a new file resource has priority 0. *)
Definition new_File (backend : FileBackend) (path : Path) : File :=
  {| file_path := path; priority := 0; file_backend := backend |}.

Definition new_Directory (backend : DirectoryBackend) (path : Path) : Directory :=
  {| directory_path := path; directory_backend := backend |}.

Definition set_priority (f : File) (p : Z) : File :=
  {| file_path := file_path f; priority := p; file_backend := file_backend f |}.

(** The kernel handle table, used by OpenLinkFile only:
    [Kernel::g_handle_table.Create(this)] and the constant
    [INVALID_HANDLE] (core/hle/kernel/kernel.h). *)
Class Kernel := {
  g_handle_table_Create : File → World → ResultVal Z * World;
  INVALID_HANDLE : Z
}.

Definition ValueOr {A} (r : ResultVal A) (dflt : A) : A :=
  match r with MakeResult a => a | Failed _ => dflt end.

(** What one [SyncRequest] leaves behind: the function's result, the
    resource, the command buffer and the world. *)
Record Synced (R : Type) := {
  sync_result : ResultVal bool;
  sync_self : R;
  sync_cmd_buff : CommandBuffer;
  sync_world : World
}.
Arguments sync_result {R}.
Arguments sync_self {R}.
Arguments sync_cmd_buff {R}.
Arguments sync_world {R}.

Context `{ResultEncoding} `{Kernel}.

(** The two statements after the switch: [cmd_buff[1] = RESULT_SUCCESS.raw;
    return MakeResult<bool>(false);]. *)
Definition sync_no_error {R} (self : R) (cmd_buff : CommandBuffer) (w : World) : Synced R :=
  {| sync_result := MakeResult false;
     sync_self := self;
     sync_cmd_buff := <[1%nat := raw RESULT_SUCCESS]> cmd_buff;
     sync_world := w |}.

Definition File_SyncRequest (self : File) (cmd_buff : CommandBuffer) (w : World)
  : Synced File :=
  let backend := file_backend self in
  match FileCommand.of_word (cmd_buff 0%nat) with
  | Some FileCommand.Read =>
      let offset := Z.lor (cmd_buff 1%nat) (Z.shiftl (cmd_buff 2%nat) 32) in
      let length := cmd_buff 3%nat in
      let address := cmd_buff 5%nat in
      let '(n, w) := fb_Read backend offset length address w in
      sync_no_error self (<[2%nat := u32 n]> cmd_buff) w
  | Some FileCommand.Write =>
      let offset := Z.lor (cmd_buff 1%nat) (Z.shiftl (cmd_buff 2%nat) 32) in
      let length := cmd_buff 3%nat in
      let flush := cmd_buff 4%nat in
      let address := cmd_buff 6%nat in
      let '(n, w) := fb_Write backend offset length flush address w in
      sync_no_error self (<[2%nat := u32 n]> cmd_buff) w
  | Some FileCommand.GetSize =>
      let '(size, w) := fb_GetSize backend w in
      let size := u64 size in
      sync_no_error self
        (<[3%nat := u32 (Z.shiftr size 32)]> (<[2%nat := u32 size]> cmd_buff)) w
  | Some FileCommand.SetSize =>
      let size := Z.lor (cmd_buff 1%nat) (Z.shiftl (cmd_buff 2%nat) 32) in
      let '(_, w) := fb_SetSize backend size w in
      sync_no_error self cmd_buff w
  | Some FileCommand.Close =>
      let '(_, w) := fb_Close backend w in
      sync_no_error self cmd_buff w
  | Some FileCommand.Flush =>
      sync_no_error self cmd_buff (fb_Flush backend w)
  | Some FileCommand.OpenLinkFile =>
      let '(r, w) := g_handle_table_Create self w in
      sync_no_error self (<[3%nat := u32 (ValueOr r INVALID_HANDLE)]> cmd_buff) w
  | Some FileCommand.SetPriority =>
      sync_no_error (set_priority self (cmd_buff 1%nat)) cmd_buff w
  | Some FileCommand.GetPriority =>
      sync_no_error self (<[2%nat := priority self]> cmd_buff) w
  | _ =>
      (* Unknown command... *)
      let error := UnimplementedFunction ErrorModule.FS in
      {| sync_result := Failed error;
         sync_self := self;
         sync_cmd_buff := <[1%nat := raw error]> cmd_buff;
         sync_world := w |}
  end.

Definition Directory_SyncRequest (self : Directory) (cmd_buff : CommandBuffer)
    (w : World) : Synced Directory :=
  let backend := directory_backend self in
  match DirectoryCommand.of_word (cmd_buff 0%nat) with
  | Some DirectoryCommand.Read =>
      let count := cmd_buff 1%nat in
      let address := cmd_buff 3%nat in
      (* Number of entries actually read *)
      let '(n, w) := db_Read backend count address w in
      sync_no_error self (<[2%nat := u32 n]> cmd_buff) w
  | Some DirectoryCommand.Close =>
      let '(_, w) := db_Close backend w in
      sync_no_error self cmd_buff w
  | _ =>
      (* Unknown command... *)
      let error := UnimplementedFunction ErrorModule.FS in
      {| sync_result := MakeResult false;
         sync_self := self;
         sync_cmd_buff := <[1%nat := raw error]> cmd_buff;
         sync_world := w |}
  end.

(** What the [default:] label of [File::SyncRequest] leaves behind. *)
Definition File_unknown_command (self : File) (cmd_buff : CommandBuffer)
    (w : World) : Synced File :=
  {| sync_result := Failed (UnimplementedFunction ErrorModule.FS);
     sync_self := self;
     sync_cmd_buff := <[1%nat := raw (UnimplementedFunction ErrorModule.FS)]> cmd_buff;
     sync_world := w |}.

(** What the [default:] label of [Directory::SyncRequest] leaves behind. *)
Definition Directory_unknown_command (self : Directory)
    (cmd_buff : CommandBuffer) (w : World) : Synced Directory :=
  {| sync_result := MakeResult false;
     sync_self := self;
     sync_cmd_buff := <[1%nat := raw (UnimplementedFunction ErrorModule.FS)]> cmd_buff;
     sync_world := w |}.

End Resources.

Arguments fb_Read {World}.
Arguments fb_Write {World}.
Arguments fb_GetSize {World}.
Arguments fb_SetSize {World}.
Arguments fb_Close {World}.
Arguments fb_Flush {World}.
Arguments db_Read {World}.
Arguments db_Close {World}.
Arguments file_path {World}.
Arguments priority {World}.
Arguments file_backend {World}.
Arguments directory_path {World}.
Arguments directory_backend {World}.
Arguments new_File {World}.
Arguments new_Directory {World}.
Arguments set_priority {World}.
Arguments sync_result {World R}.
Arguments sync_self {World R}.
Arguments sync_cmd_buff {World R}.
Arguments sync_world {World R}.
Arguments sync_no_error {World _ R}.
Arguments File_SyncRequest {World _ _}.
Arguments Directory_SyncRequest {World _}.
Arguments File_unknown_command {World _}.
Arguments Directory_unknown_command {World _}.

(** ** Archive registry and handle table *)

(** [ArchiveIdCode]: the archive kinds archive.cpp names (plus RomFS, whose
    header it includes and which it never registers). *)
Inductive ArchiveIdCode :=
  | RomFS | SaveData | ExtSaveData | SharedExtSaveData | SystemSaveData
  | SDMC | SaveDataCheck.

#[global] Instance ArchiveIdCode_eq_dec : EqDecision ArchiveIdCode.
Proof. solve_decision. Defined.

Definition ArchiveIdCode_index (c : ArchiveIdCode) : nat :=
  match c with
  | RomFS => 0 | SaveData => 1 | ExtSaveData => 2 | SharedExtSaveData => 3
  | SystemSaveData => 4 | SDMC => 5 | SaveDataCheck => 6
  end%nat.

Definition ArchiveIdCode_of_index (n : nat) : ArchiveIdCode :=
  match n with
  | 0 => RomFS | 1 => SaveData | 2 => ExtSaveData | 3 => SharedExtSaveData
  | 4 => SystemSaveData | 5 => SDMC | _ => SaveDataCheck
  end%nat.

#[global] Instance ArchiveIdCode_countable : Countable ArchiveIdCode.
Proof.
  apply (inj_countable' ArchiveIdCode_index ArchiveIdCode_of_index).
  by intros [].
Defined.

(** [typedef u64 ArchiveHandle]. *)
Abbreviation ArchiveHandle := Z.

Section Archives.
Variable World : Type.

(** An [ArchiveBackend] object: the address the object lives at (what the
    raw pointer returned by [GetArchive] compares by), the virtual
    operations the rename functions call, and its destructor. *)
Record ArchiveBackend := {
  ab_this : Z;
  ab_RenameFile : Path → Path → World → bool * World;
  ab_RenameDirectory : Path → Path → World → bool * World;
  ab_destroy : World → World
}.

(** An [ArchiveFactory]: [Open] yields a backend or an error, [Format]
    yields a result code. *)
Record ArchiveFactory := {
  af_Open : Path → World → ResultVal ArchiveBackend * World;
  af_Format : Path → World → ResultCode * World
}.

(** The file-scope statics [id_code_map], [handle_map], [next_handle],
    together with the world outside this file. *)
Record FS := {
  id_code_map : gmap ArchiveIdCode ArchiveFactory;
  handle_map : gmap Z ArchiveBackend;
  next_handle : ArchiveHandle;
  host : World
}.

Definition with_host (s : FS) (w : World) : FS :=
  {| id_code_map := id_code_map s; handle_map := handle_map s;
     next_handle := next_handle s; host := w |}.

Definition with_id_code_map (s : FS) (m : gmap ArchiveIdCode ArchiveFactory) : FS :=
  {| id_code_map := m; handle_map := handle_map s;
     next_handle := next_handle s; host := host s |}.

(** How a call ends: it returns, it is stopped by a failed [ASSERT_MSG]
    (the state is the one at the assertion), or it never leaves a loop.
    [ASSERT_MSG] is a macro of common/assert.h, which is not part of the
    sources: a false condition is a fatal assertion that ends the program
    with the given message. *)
Inductive Outcome (A : Type) :=
  | Returns (a : A) (s : FS)
  | Aborts (msg : string) (s : FS)
  | Hangs.
Arguments Returns {A} a s.
Arguments Aborts {A} msg s.
Arguments Hangs {A}.

Definition M (A : Type) : Type := FS → Outcome A.

Definition ret {A} (a : A) : M A := λ s, Returns a s.

Definition bind {A B} (m : M A) (k : A → M B) : M B := λ s,
  match m s with
  | Returns a s' => k a s'
  | Aborts msg s' => Aborts msg s'
  | Hangs => Hangs
  end.

(** Pointer equality of two backend objects. *)
Definition same_object (a b : ArchiveBackend) : bool :=
  bool_decide (ab_this a = ab_this b).

Definition GetArchive (s : FS) (handle : ArchiveHandle) : option ArchiveBackend :=
  handle_map s !! handle.

(** [while (handle_map.count(next_handle) != 0) ++next_handle;] run for at
    most [fuel] tests of the condition; [None] when they did not suffice. *)
Fixpoint skip_used_handles (fuel : nat) (m : gmap Z ArchiveBackend)
    (next : ArchiveHandle) : option ArchiveHandle :=
  match fuel with
  | O => None
  | S fuel =>
      match m !! next with
      | Some _ => skip_used_handles fuel m (u64 (next + 1))
      | None => Some next
      end
  end.

Definition OpenArchive (id_code : ArchiveIdCode) (archive_path : Path)
  : M (ResultVal ArchiveHandle) := λ s,
  match id_code_map s !! id_code with
  | None =>
      Returns (Failed (mkResultCode ErrorDescription.NotFound ErrorModule.FS
                         ErrorSummary.NotFound ErrorLevel.Permanent)) s
  | Some factory =>
      (* CASCADE_RESULT (core/hle/result.h): a failure of the factory is
         returned as it is, a success is unwrapped into [res] *)
      match af_Open factory archive_path (host s) with
      | (Failed code, w) => Returns (Failed code) (with_host s w)
      | (MakeResult res, w) =>
          match skip_used_handles (S (size (handle_map s))) (handle_map s)
                  (next_handle s) with
          | None => Hangs
          | Some handle =>
              Returns (MakeResult handle)
                {| id_code_map := id_code_map s;
                   handle_map := <[handle := res]> (handle_map s);
                   next_handle := u64 (handle + 1);
                   host := w |}
          end
      end
  end.

Definition CloseArchive (handle : ArchiveHandle) : M ResultCode := λ s,
  match handle_map s !! handle with
  | None => Returns ERR_INVALID_HANDLE s
  | Some backend =>
      Returns RESULT_SUCCESS
        {| id_code_map := id_code_map s;
           handle_map := delete handle (handle_map s);
           next_handle := next_handle s;
           host := ab_destroy backend (host s) |}
  end.

(** [flat_map::emplace]: inserts unless the key is taken, and says which. *)
Definition emplace (id_code : ArchiveIdCode) (factory : ArchiveFactory)
    (m : gmap ArchiveIdCode ArchiveFactory)
  : gmap ArchiveIdCode ArchiveFactory * bool :=
  match m !! id_code with
  | Some _ => (m, false)
  | None => (<[id_code := factory]> m, true)
  end.

Definition RegisterArchiveType (factory : ArchiveFactory) (id_code : ArchiveIdCode)
  : M ResultCode := λ s,
  let '(m, inserted) := emplace id_code factory (id_code_map s) in
  if inserted then Returns RESULT_SUCCESS (with_id_code_map s m)
  else Aborts "Tried to register more than one archive with same id code"
              (with_id_code_map s m).

Definition RenameFileBetweenArchives (src_archive_handle : ArchiveHandle)
    (src_path : Path) (dest_archive_handle : ArchiveHandle) (dest_path : Path)
  : M ResultCode := λ s,
  match GetArchive s src_archive_handle, GetArchive s dest_archive_handle with
  | Some src_archive, Some dest_archive =>
      if same_object src_archive dest_archive then
        match ab_RenameFile src_archive src_path dest_path (host s) with
        | (true, w) => Returns RESULT_SUCCESS (with_host s w)
        | (false, w) =>
            Returns (mkResultCode ErrorDescription.NoData ErrorModule.FS
                       ErrorSummary.NothingHappened ErrorLevel.Status)
                    (with_host s w)
        end
      else Returns (UnimplementedFunction ErrorModule.FS) s
  | _, _ => Returns ERR_INVALID_HANDLE s
  end.

Definition RenameDirectoryBetweenArchives (src_archive_handle : ArchiveHandle)
    (src_path : Path) (dest_archive_handle : ArchiveHandle) (dest_path : Path)
  : M ResultCode := λ s,
  match GetArchive s src_archive_handle, GetArchive s dest_archive_handle with
  | Some src_archive, Some dest_archive =>
      if same_object src_archive dest_archive then
        match ab_RenameDirectory src_archive src_path dest_path (host s) with
        | (true, w) => Returns RESULT_SUCCESS (with_host s w)
        | (false, w) =>
            Returns (mkResultCode ErrorDescription.NoData ErrorModule.FS
                       ErrorSummary.NothingHappened ErrorLevel.Status)
                    (with_host s w)
        end
      else Returns (UnimplementedFunction ErrorModule.FS) s
  | _, _ => Returns ERR_INVALID_HANDLE s
  end.

Definition FormatArchive (id_code : ArchiveIdCode) (path : Path) : M ResultCode := λ s,
  match id_code_map s !! id_code with
  | None => Returns (UnimplementedFunction ErrorModule.FS) s
  | Some factory =>
      let '(code, w) := af_Format factory path (host s) in
      Returns code (with_host s w)
  end.

(** Calls into the world outside this file, lifted to [M]. *)
Definition call_host {A} (f : World → A * World) : M A := λ s,
  let '(a, w) := f (host s) in Returns a (with_host s w).

Definition set_next_handle (v : ArchiveHandle) : M unit := λ s,
  Returns tt {| id_code_map := id_code_map s; handle_map := handle_map s;
                next_handle := v; host := host s |}.

#[local] Instance M_ret : MRet M := @ret.
#[local] Instance M_bind : MBind M := λ A B k m, bind m k.

(** What [ArchiveInit] takes from outside this file: the service
    registration, the six factory objects it constructs and the
    [Initialize] calls of the three factories that have one. *)
Record Boot := {
  AddService : World → unit * World;
  sdmc_factory : ArchiveFactory;
  sdmc_Initialize : World → bool * World;
  savedata_factory : ArchiveFactory;
  extsavedata_factory : ArchiveFactory;
  extsavedata_Initialize : World → bool * World;
  sharedextsavedata_factory : ArchiveFactory;
  sharedextsavedata_Initialize : World → bool * World;
  savedatacheck_factory : ArchiveFactory;
  systemsavedata_factory : ArchiveFactory
}.

(** Register a factory when its [Initialize] succeeds (otherwise the
    source only logs). *)
Definition register_if_initialized (init : World → bool * World)
    (factory : ArchiveFactory) (id_code : ArchiveIdCode) : M unit :=
  ok ← call_host init;
  if ok : bool then RegisterArchiveType factory id_code;; mret tt else mret tt.

Definition ArchiveInit (b : Boot) : M unit :=
  set_next_handle 1;;
  call_host (AddService b);;
  register_if_initialized (sdmc_Initialize b) (sdmc_factory b) SDMC;;
  RegisterArchiveType (savedata_factory b) SaveData;;
  register_if_initialized (extsavedata_Initialize b) (extsavedata_factory b)
    ExtSaveData;;
  register_if_initialized (sharedextsavedata_Initialize b)
    (sharedextsavedata_factory b) SharedExtSaveData;;
  RegisterArchiveType (savedatacheck_factory b) SaveDataCheck;;
  RegisterArchiveType (systemsavedata_factory b) SystemSaveData;;
  mret tt.

(** The statics before [ArchiveInit] has run: empty maps and a
    zero-initialised counter. *)
Definition at_startup (w : World) : FS :=
  {| id_code_map := ∅; handle_map := ∅; next_handle := 0; host := w |}.

(** The value a call returned, if it returned. *)
Definition result_of {A} (o : Outcome A) : option A :=
  match o with Returns a _ => Some a | _ => None end.

(** The states the table goes through: [ArchiveInit] on the statics as they
    are at startup, then any number of [OpenArchive] and [CloseArchive]
    calls that return. *)
Inductive Reachable (b : Boot) : FS → Prop :=
  | reach_init w s :
      ArchiveInit b (at_startup w) = Returns tt s → Reachable b s
  | reach_open s id_code path r s' :
      Reachable b s → OpenArchive id_code path s = Returns r s' → Reachable b s'
  | reach_close s handle r s' :
      Reachable b s → CloseArchive handle s = Returns r s' → Reachable b s'.

(** The regime before the counter has wrapped around: every handle in the
    table is nonzero and below the counter. *)
Definition counter_above_handles (s : FS) : Prop :=
  0 < next_handle s < 2 ^ 64
  ∧ ∀ k, is_Some (handle_map s !! k) → 0 < k < next_handle s.

End Archives.


Arguments ab_this {World}.
Arguments ab_RenameFile {World}.
Arguments ab_RenameDirectory {World}.
Arguments ab_destroy {World}.
Arguments af_Open {World}.
Arguments af_Format {World}.
Arguments id_code_map {World}.
Arguments handle_map {World}.
Arguments next_handle {World}.
Arguments host {World}.
Arguments with_host {World}.
Arguments with_id_code_map {World}.
Arguments Returns {World A}.
Arguments Aborts {World A}.
Arguments Hangs {World A}.
Arguments same_object {World}.
Arguments GetArchive {World}.
Arguments skip_used_handles {World}.
Arguments OpenArchive {World}.
Arguments CloseArchive {World}.
Arguments emplace {World}.
Arguments RegisterArchiveType {World}.
Arguments RenameFileBetweenArchives {World}.
Arguments RenameDirectoryBetweenArchives {World}.
Arguments FormatArchive {World}.
Arguments ArchiveInit {World}.
Arguments at_startup {World}.
Arguments result_of {World A}.
Arguments Reachable {World}.
Arguments counter_above_handles {World}.

(** ** A concrete scenario

    One instance of every interface, used to run the model: the world is the
    log of the calls made to the outside, newest first. *)

Module Scenario.

Definition World : Type := list string.

Definition description_code (d : ErrorDescription.t) : Z :=
  match d with
  | ErrorDescription.Success => 0
  | ErrorDescription.FS_NotFound => 100
  | ErrorDescription.NoData => 1007
  | ErrorDescription.NotImplemented => 1012
  | ErrorDescription.InvalidHandle => 1015
  | ErrorDescription.NotFound => 1018
  end.

Definition module_code (m : ErrorModule.t) : Z :=
  match m with ErrorModule.Common => 0 | ErrorModule.FS => 17 end.

Definition summary_code (s : ErrorSummary.t) : Z :=
  match s with
  | ErrorSummary.Success => 0
  | ErrorSummary.NothingHappened => 1
  | ErrorSummary.NotFound => 4
  | ErrorSummary.NotSupported => 6
  | ErrorSummary.InvalidArgument => 7
  | ErrorSummary.Canceled => 9
  end.

Definition level_code (l : ErrorLevel.t) : Z :=
  match l with
  | ErrorLevel.Success => 0
  | ErrorLevel.Status => 25
  | ErrorLevel.Permanent => 27
  end.

(** An encoding laid out as the 3DS result word: description in bits 0-9,
    module in bits 10-17, summary in bits 21-26, level in bits 27-31. *)
#[export] Instance encoding_3ds : ResultEncoding := λ c,
  Z.lor (description_code (description c))
    (Z.lor (Z.shiftl (module_code (module c)) 10)
       (Z.lor (Z.shiftl (summary_code (summary c)) 21)
              (Z.shiftl (level_code (level c)) 27))).

#[export] Instance kernel : Kernel World :=
  {| g_handle_table_Create := λ _ w, (MakeResult 0x20, "Create"%string :: w);
     INVALID_HANDLE := 0 |}.

Definition buffer_of (words : list Z) : CommandBuffer := λ i, nth i words 0.

(** A file of [size] bytes: a read at [offset] transfers what is left of
    the file, at most [length] bytes. *)
Definition file_of_size (size : Z) : FileBackend World :=
  {| fb_Read := λ offset length _ w,
       (Z.min length (Z.max 0 (size - offset)), "Read"%string :: w);
     fb_Write := λ _ length _ _ w, (length, "Write"%string :: w);
     fb_GetSize := λ w, (size, "GetSize"%string :: w);
     fb_SetSize := λ _ w, (false, "SetSize"%string :: w);
     fb_Close := λ w, (true, "Close"%string :: w);
     fb_Flush := λ w, "Flush"%string :: w |}.

Definition listing_of (entries : Z) : DirectoryBackend World :=
  {| db_Read := λ count _ w, (Z.min count entries, "Read"%string :: w);
     db_Close := λ w, (true, "Close"%string :: w) |}.

Definition a_file : File World :=
  set_priority (new_File (file_of_size 10) (TextPath "/save.bin")) 7.

Definition a_directory : Directory World :=
  new_Directory (listing_of 3) (TextPath "/").

(** An archive object at address [addr] whose renames answer [renames]. *)
Definition archive_at (addr : Z) (renames : bool) : ArchiveBackend World :=
  {| ab_this := addr;
     ab_RenameFile := λ _ _ w, (renames, "RenameFile"%string :: w);
     ab_RenameDirectory := λ _ _ w, (renames, "RenameDirectory"%string :: w);
     ab_destroy := λ w, "~ArchiveBackend"%string :: w |}.

(** A factory that opens the empty path only; each archive it makes is
    allocated at a new address (the length of the log). *)
Definition a_factory (format : ResultCode) : ArchiveFactory World :=
  {| af_Open := λ path w,
       match path with
       | EmptyPath =>
           (MakeResult (archive_at (Z.of_nat (length w)) true), "Open"%string :: w)
       | _ =>
           (Failed (mkResultCode ErrorDescription.FS_NotFound ErrorModule.FS
                      ErrorSummary.NotFound ErrorLevel.Status),
            "Open"%string :: w)
       end;
     af_Format := λ _ w, (format, "Format"%string :: w) |}.

Definition boot : Boot World :=
  {| AddService := λ w, (tt, "AddService"%string :: w);
     sdmc_factory := a_factory RESULT_SUCCESS;
     sdmc_Initialize := λ w, (true, w);
     savedata_factory := a_factory RESULT_SUCCESS;
     extsavedata_factory := a_factory RESULT_SUCCESS;
     extsavedata_Initialize := λ w, (false, w);
     sharedextsavedata_factory := a_factory RESULT_SUCCESS;
     sharedextsavedata_Initialize := λ w, (true, w);
     savedatacheck_factory := a_factory RESULT_SUCCESS;
     systemsavedata_factory := a_factory RESULT_SUCCESS |}.

(** A state with SDMC registered and the given handle table and counter. *)
Definition fs_with (handles : gmap Z (ArchiveBackend World)) (next : Z) : FS World :=
  {| id_code_map := {[ SDMC := a_factory RESULT_SUCCESS ]};
     handle_map := handles;
     next_handle := next;
     host := [] |}.

(** Three open archives, at handles 1, 2 and 3; the third one refuses
    renames.  The counter is given, so that it may lag behind the table. *)
Definition three_archives (next : Z) : FS World :=
  fs_with (<[1 := archive_at 100 true]>
             (<[2 := archive_at 200 true]>
                (<[3 := archive_at 300 false]> ∅))) next.

End Scenario.

(** ** Runs of requests *)

Section ResourceRuns.
Context {World : Type} `{ResultEncoding} `{Kernel World}.

(** A file resource serving one request after the other, each request in
    its own command buffer: the resource and the world after the last one. *)
Definition File_SyncRequests (requests : list CommandBuffer) (self : File World)
    (w : World) : File World * World :=
  foldl (λ st cmd_buff,
           (sync_self (File_SyncRequest st.1 cmd_buff st.2),
            sync_world (File_SyncRequest st.1 cmd_buff st.2)))
        (self, w) requests.

End ResourceRuns.

(** ** The remaining archive operations *)

(** Modelled from the spec: [FileSys::Mode] (core/file_sys/archive_backend.h),
    the opaque open-mode flags handed through to the backend, a 32-bit
    word. *)
Abbreviation Mode := Z (only parsing).

Section ArchiveOperations.
Variable World : Type.

(** The virtual operations of [ArchiveBackend] that the rename functions do
    not use, and the destructor of [ArchiveFactory], each given as a
    function of the object it is called on.  [OpenFile] and [OpenDirectory]
    return an owning pointer, null ([None]) when there is nothing to open;
    [CreateFile] returns a result code, the others a boolean. *)
Class BackendOperations := {
  ab_OpenFile :
    ArchiveBackend World → Path → Mode → World → option (FileBackend World) * World;
  ab_DeleteFile : ArchiveBackend World → Path → World → bool * World;
  ab_DeleteDirectory : ArchiveBackend World → Path → World → bool * World;
  ab_CreateFile : ArchiveBackend World → Path → Z → World → ResultCode * World;
  ab_CreateDirectory : ArchiveBackend World → Path → World → bool * World;
  ab_OpenDirectory :
    ArchiveBackend World → Path → World → option (DirectoryBackend World) * World;
  af_destroy : ArchiveFactory World → World → World
}.

Context `{BackendOperations}.

Definition OpenFileFromArchive (archive_handle : ArchiveHandle) (path : Path)
    (mode : Mode) : M World (ResultVal (File World)) := λ s,
  match GetArchive s archive_handle with
  | None => Returns (Failed ERR_INVALID_HANDLE) s
  | Some archive =>
      match ab_OpenFile archive path mode (host s) with
      | (None, w) =>
          Returns (Failed (mkResultCode ErrorDescription.FS_NotFound ErrorModule.FS
                             ErrorSummary.NotFound ErrorLevel.Status))
                  (with_host s w)
      | (Some backend, w) =>
          Returns (MakeResult (new_File backend path)) (with_host s w)
      end
  end.

Definition DeleteFileFromArchive (archive_handle : ArchiveHandle) (path : Path)
  : M World ResultCode := λ s,
  match GetArchive s archive_handle with
  | None => Returns ERR_INVALID_HANDLE s
  | Some archive =>
      match ab_DeleteFile archive path (host s) with
      | (true, w) => Returns RESULT_SUCCESS (with_host s w)
      | (false, w) =>
          Returns (mkResultCode ErrorDescription.NoData ErrorModule.FS
                     ErrorSummary.Canceled ErrorLevel.Status)
                  (with_host s w)
      end
  end.

Definition DeleteDirectoryFromArchive (archive_handle : ArchiveHandle) (path : Path)
  : M World ResultCode := λ s,
  match GetArchive s archive_handle with
  | None => Returns ERR_INVALID_HANDLE s
  | Some archive =>
      match ab_DeleteDirectory archive path (host s) with
      | (true, w) => Returns RESULT_SUCCESS (with_host s w)
      | (false, w) =>
          Returns (mkResultCode ErrorDescription.NoData ErrorModule.FS
                     ErrorSummary.Canceled ErrorLevel.Status)
                  (with_host s w)
      end
  end.

Definition CreateFileInArchive (archive_handle : ArchiveHandle) (path : Path)
    (file_size : Z) : M World ResultCode := λ s,
  match GetArchive s archive_handle with
  | None => Returns ERR_INVALID_HANDLE s
  | Some archive =>
      let '(code, w) := ab_CreateFile archive path file_size (host s) in
      Returns code (with_host s w)
  end.

Definition CreateDirectoryFromArchive (archive_handle : ArchiveHandle) (path : Path)
  : M World ResultCode := λ s,
  match GetArchive s archive_handle with
  | None => Returns ERR_INVALID_HANDLE s
  | Some archive =>
      match ab_CreateDirectory archive path (host s) with
      | (true, w) => Returns RESULT_SUCCESS (with_host s w)
      | (false, w) =>
          Returns (mkResultCode ErrorDescription.NoData ErrorModule.FS
                     ErrorSummary.Canceled ErrorLevel.Status)
                  (with_host s w)
      end
  end.

Definition OpenDirectoryFromArchive (archive_handle : ArchiveHandle) (path : Path)
  : M World (ResultVal (Directory World)) := λ s,
  match GetArchive s archive_handle with
  | None => Returns (Failed ERR_INVALID_HANDLE) s
  | Some archive =>
      match ab_OpenDirectory archive path (host s) with
      | (None, w) =>
          Returns (Failed (mkResultCode ErrorDescription.NotFound ErrorModule.FS
                             ErrorSummary.NotFound ErrorLevel.Permanent))
                  (with_host s w)
      | (Some backend, w) =>
          Returns (MakeResult (new_Directory backend path)) (with_host s w)
      end
  end.

(** [ArchiveShutdown]: [handle_map.clear()] destroys every open backend,
    then [id_code_map.clear()] destroys every factory.  The containers do
    not fix a portable order of destruction, so the call is a relation: any
    order of the backends followed by any order of the factories.  The
    counter is not touched. *)
Inductive ArchiveShutdown : FS World → FS World → Prop :=
  | shutdown_clears s (backends : list (ArchiveBackend World))
      (factories : list (ArchiveFactory World)) :
      backends ≡ₚ (map_to_list (handle_map s)).*2 →
      factories ≡ₚ (map_to_list (id_code_map s)).*2 →
      ArchiveShutdown s
        {| id_code_map := ∅;
           handle_map := ∅;
           next_handle := next_handle s;
           host := foldl (λ w factory, af_destroy factory w)
                     (foldl (λ w backend, ab_destroy backend w) (host s) backends)
                     factories |}.

(** Two states with the same registry, handle table and counter. *)
Definition same_tables (s s' : FS World) : Prop :=
  id_code_map s' = id_code_map s
  ∧ handle_map s' = handle_map s
  ∧ next_handle s' = next_handle s.

(** [Issued b n s]: [s] is reached from [ArchiveInit] at startup by calls
    among which exactly [n] were successful [OpenArchive] calls; the other
    calls are failed [OpenArchive] calls, [CloseArchive] calls and calls
    that leave the tables as they are. *)
Inductive Issued (b : Boot World) : nat → FS World → Prop :=
  | issued_init w s :
      ArchiveInit b (at_startup w) = Returns () s → Issued b 0 s
  | issued_open n s id_code path handle s' :
      Issued b n s →
      OpenArchive id_code path s = Returns (MakeResult handle) s' →
      Issued b (S n) s'
  | issued_open_failed n s id_code path code s' :
      Issued b n s →
      OpenArchive id_code path s = Returns (Failed code) s' →
      Issued b n s'
  | issued_close n s handle r s' :
      Issued b n s → CloseArchive handle s = Returns r s' → Issued b n s'
  | issued_other n s s' :
      Issued b n s → same_tables s s' → Issued b n s'.

End ArchiveOperations.

Arguments ab_OpenFile {World _}.
Arguments ab_DeleteFile {World _}.
Arguments ab_DeleteDirectory {World _}.
Arguments ab_CreateFile {World _}.
Arguments ab_CreateDirectory {World _}.
Arguments ab_OpenDirectory {World _}.
Arguments af_destroy {World _}.
Arguments OpenFileFromArchive {World _}.
Arguments DeleteFileFromArchive {World _}.
Arguments DeleteDirectoryFromArchive {World _}.
Arguments CreateFileInArchive {World _}.
Arguments CreateDirectoryFromArchive {World _}.
Arguments OpenDirectoryFromArchive {World _}.
Arguments ArchiveShutdown {World _}.
Arguments same_tables {World}.
Arguments Issued {World}.

(** The scenario, with the remaining operations: every archive holds one
    file, "/save.bin" of 128 bytes, and the root directory. *)
Module ScenarioOps.
Import Scenario.

#[export] Instance operations : BackendOperations World :=
  {| ab_OpenFile := λ _ path _ w,
       match path with
       | TextPath "/save.bin" => (Some (file_of_size 128), "OpenFile"%string :: w)
       | _ => (None, "OpenFile"%string :: w)
       end;
     ab_DeleteFile := λ _ path w,
       match path with
       | TextPath "/save.bin" => (true, "DeleteFile"%string :: w)
       | _ => (false, "DeleteFile"%string :: w)
       end;
     ab_DeleteDirectory := λ _ _ w, (false, "DeleteDirectory"%string :: w);
     ab_CreateFile := λ _ path _ w,
       match path with
       | TextPath "/save.bin" =>
           (mkResultCode ErrorDescription.NoData ErrorModule.FS
              ErrorSummary.NothingHappened ErrorLevel.Status,
            "CreateFile"%string :: w)
       | _ => (RESULT_SUCCESS, "CreateFile"%string :: w)
       end;
     ab_CreateDirectory := λ _ path w,
       match path with
       | EmptyPath => (false, "CreateDirectory"%string :: w)
       | _ => (true, "CreateDirectory"%string :: w)
       end;
     ab_OpenDirectory := λ _ path w,
       match path with
       | TextPath "/" => (Some (listing_of 1), "OpenDirectory"%string :: w)
       | _ => (None, "OpenDirectory"%string :: w)
       end;
     af_destroy := λ _ w, "~ArchiveFactory"%string :: w |}.

End ScenarioOps.

(** * Properties *)

(** ** Decoding of opcodes *)

Lemma FileCommand_of_word_code (c : FileCommand.t) :
  FileCommand.of_word (FileCommand.code c) = Some c.
Proof. by destruct c. Qed.

Lemma FileCommand_of_word_None (w : Z) :
  (∀ c, FileCommand.code c ≠ w) → FileCommand.of_word w = None.
Proof.
  intros Hout. unfold FileCommand.of_word.
  destruct (List.find _ _) as [c|] eqn:Hfind; [|done].
  apply List.find_some in Hfind as [_ Hc].
  apply bool_decide_eq_true in Hc. by destruct (Hout c).
Qed.

Lemma DirectoryCommand_of_word_code (c : DirectoryCommand.t) :
  DirectoryCommand.of_word (DirectoryCommand.code c) = Some c.
Proof. by destruct c. Qed.

Lemma DirectoryCommand_of_word_None (w : Z) :
  (∀ c, DirectoryCommand.code c ≠ w) → DirectoryCommand.of_word w = None.
Proof.
  intros Hout. unfold DirectoryCommand.of_word.
  destruct (List.find _ _) as [c|] eqn:Hfind; [|done].
  apply List.find_some in Hfind as [_ Hc].
  apply bool_decide_eq_true in Hc. by destruct (Hout c).
Qed.

(** ** The dispatchers *)

Section Dispatch.
Context {World : Type} `{ResultEncoding} `{Kernel World}.

Lemma File_SyncRequest_outside_table (self : File World) cmd_buff w :
  (∀ c, FileCommand.code c ≠ cmd_buff 0%nat) →
  File_SyncRequest self cmd_buff w = File_unknown_command self cmd_buff w.
Proof.
  intros Hout. unfold File_SyncRequest.
  by rewrite (FileCommand_of_word_None _ Hout).
Qed.

Lemma Directory_SyncRequest_outside_table (self : Directory World) cmd_buff w :
  (∀ c, DirectoryCommand.code c ≠ cmd_buff 0%nat) →
  Directory_SyncRequest self cmd_buff w = Directory_unknown_command self cmd_buff w.
Proof.
  intros Hout. unfold Directory_SyncRequest.
  by rewrite (DirectoryCommand_of_word_None _ Hout).
Qed.

(** Enumerators of the file table that the switch has no [case] for end up
    at [default:] as well. *)
Lemma File_SyncRequest_no_case (self : File World) cmd_buff w c :
  cmd_buff 0%nat = FileCommand.code c →
  c ∈ [FileCommand.Dummy1; FileCommand.Control; FileCommand.OpenSubFile;
       FileCommand.GetAttributes; FileCommand.SetAttributes] →
  File_SyncRequest self cmd_buff w = File_unknown_command self cmd_buff w.
Proof.
  intros Hop Hc. unfold File_SyncRequest.
  rewrite Hop, FileCommand_of_word_code.
  repeat (apply elem_of_cons in Hc as [->|Hc]; [done|]).
  by apply elem_of_nil in Hc.
Qed.

Lemma Directory_SyncRequest_no_case (self : Directory World) cmd_buff w c :
  cmd_buff 0%nat = DirectoryCommand.code c →
  c ∈ [DirectoryCommand.Dummy1; DirectoryCommand.Control] →
  Directory_SyncRequest self cmd_buff w = Directory_unknown_command self cmd_buff w.
Proof.
  intros Hop Hc. unfold Directory_SyncRequest.
  rewrite Hop, DirectoryCommand_of_word_code.
  repeat (apply elem_of_cons in Hc as [->|Hc]; [done|]).
  by apply elem_of_nil in Hc.
Qed.

(** The general form of a Read dispatch: the backend is called once with the
    decoded offset, length and address, its count is stored truncated to 32
    bits, and the dispatch ends on the success path. *)
Lemma File_SyncRequest_Read (self : File World) cmd_buff w :
  cmd_buff 0%nat = FileCommand.code FileCommand.Read →
  File_SyncRequest self cmd_buff w =
    let offset := Z.lor (cmd_buff 1%nat) (Z.shiftl (cmd_buff 2%nat) 32) in
    let r := fb_Read (file_backend self) offset (cmd_buff 3%nat) (cmd_buff 5%nat) w in
    sync_no_error self (<[2%nat := u32 (fst r)]> cmd_buff) (snd r).
Proof.
  intros Hop. unfold File_SyncRequest.
  rewrite Hop, FileCommand_of_word_code. simpl.
  by destruct (fb_Read _ _ _ _ _).
Qed.

End Dispatch.

Section DispatchClaims.
Context {World : Type} `{ResultEncoding} `{Kernel World}.

(** C8.  An opcode that is in neither command table makes the file
    dispatcher, respectively the directory dispatcher, store the
    Unimplemented error in the status word [cmd_buff[1]] and nothing else:
    the resource (for a file, its priority in particular), the world behind
    the backend and every other word of the buffer are as before. *)
Theorem unknown_opcode_keeps_state (f : File World) (d : Directory World)
    (file_buff dir_buff : CommandBuffer) (w : World) :
  (∀ c, FileCommand.code c ≠ file_buff 0%nat) →
  (∀ c, DirectoryCommand.code c ≠ dir_buff 0%nat) →
  (sync_cmd_buff (File_SyncRequest f file_buff w) 1%nat
     = raw (UnimplementedFunction ErrorModule.FS)
   ∧ sync_self (File_SyncRequest f file_buff w) = f
   ∧ priority (sync_self (File_SyncRequest f file_buff w)) = priority f
   ∧ sync_world (File_SyncRequest f file_buff w) = w
   ∧ ∀ i, i ≠ 1%nat → sync_cmd_buff (File_SyncRequest f file_buff w) i = file_buff i)
  ∧ (sync_cmd_buff (Directory_SyncRequest d dir_buff w) 1%nat
       = raw (UnimplementedFunction ErrorModule.FS)
     ∧ sync_self (Directory_SyncRequest d dir_buff w) = d
     ∧ sync_world (Directory_SyncRequest d dir_buff w) = w
     ∧ ∀ i, i ≠ 1%nat → sync_cmd_buff (Directory_SyncRequest d dir_buff w) i = dir_buff i).
Proof.
  intros Hf Hd.
  rewrite (File_SyncRequest_outside_table _ _ _ Hf).
  rewrite (Directory_SyncRequest_outside_table _ _ _ Hd).
  simpl. repeat split; try apply fn_lookup_insert;
    intros i Hi; by apply fn_lookup_insert_ne.
Qed.

(** C10.  On an opcode outside its table, [File::SyncRequest] returns the
    Unimplemented error as the result of the function; on one outside its
    table, [Directory::SyncRequest] stores the Unimplemented error in the
    status word and yet returns a value (success) as the result of the
    function. *)
Theorem unknown_opcode_result_channels (f : File World) (d : Directory World)
    (file_buff dir_buff : CommandBuffer) (w : World) :
  (∀ c, FileCommand.code c ≠ file_buff 0%nat) →
  (∀ c, DirectoryCommand.code c ≠ dir_buff 0%nat) →
  sync_result (File_SyncRequest f file_buff w)
    = Failed (UnimplementedFunction ErrorModule.FS)
  ∧ sync_cmd_buff (File_SyncRequest f file_buff w) 1%nat
    = raw (UnimplementedFunction ErrorModule.FS)
  ∧ sync_result (Directory_SyncRequest d dir_buff w) = MakeResult false
  ∧ sync_cmd_buff (Directory_SyncRequest d dir_buff w) 1%nat
    = raw (UnimplementedFunction ErrorModule.FS).
Proof.
  intros Hf Hd.
  rewrite (File_SyncRequest_outside_table _ _ _ Hf).
  rewrite (Directory_SyncRequest_outside_table _ _ _ Hd).
  simpl. repeat split; apply fn_lookup_insert.
Qed.

(** C3, as the code has it.  The switch of [File::SyncRequest] has no case
    for GetAttributes or SetAttributes: dispatching either one ends at
    [default:], which returns the Unimplemented error and stores it in the
    status word, calls no backend operation and changes neither the
    resource nor any other word of the buffer. *)
Theorem attributes_opcodes_unimplemented (f : File World)
    (cmd_buff : CommandBuffer) (w : World) :
  cmd_buff 0%nat = FileCommand.code FileCommand.GetAttributes
  ∨ cmd_buff 0%nat = FileCommand.code FileCommand.SetAttributes →
  sync_result (File_SyncRequest f cmd_buff w)
    = Failed (UnimplementedFunction ErrorModule.FS)
  ∧ sync_cmd_buff (File_SyncRequest f cmd_buff w) 1%nat
    = raw (UnimplementedFunction ErrorModule.FS)
  ∧ (∀ i, i ≠ 1%nat → sync_cmd_buff (File_SyncRequest f cmd_buff w) i = cmd_buff i)
  ∧ sync_self (File_SyncRequest f cmd_buff w) = f
  ∧ sync_world (File_SyncRequest f cmd_buff w) = w.
Proof.
  intros Hop.
  assert (File_SyncRequest f cmd_buff w = File_unknown_command f cmd_buff w) as ->.
  { destruct Hop as [Hop|Hop];
      eapply File_SyncRequest_no_case; try exact Hop; set_solver. }
  simpl. repeat split; try apply fn_lookup_insert.
  intros i Hi. by apply fn_lookup_insert_ne.
Qed.

(** C4.  On a Read dispatch the byte count the backend reports (a count
    that fits the 32-bit response word, whether or not it reaches the
    requested length [cmd_buff[3]]) is stored in [cmd_buff[2]], the status
    word [cmd_buff[1]] is the success sentinel and the function returns a
    value, not an error. *)
Theorem read_reports_count_with_success (f : File World)
    (cmd_buff : CommandBuffer) (w w' : World) (n : Z) :
  cmd_buff 0%nat = FileCommand.code FileCommand.Read →
  fb_Read (file_backend f)
    (Z.lor (cmd_buff 1%nat) (Z.shiftl (cmd_buff 2%nat) 32))
    (cmd_buff 3%nat) (cmd_buff 5%nat) w = (n, w') →
  0 ≤ n < 2 ^ 32 →
  sync_cmd_buff (File_SyncRequest f cmd_buff w) 2%nat = n
  ∧ sync_cmd_buff (File_SyncRequest f cmd_buff w) 1%nat = raw RESULT_SUCCESS
  ∧ sync_result (File_SyncRequest f cmd_buff w) = MakeResult false
  ∧ sync_self (File_SyncRequest f cmd_buff w) = f
  ∧ sync_world (File_SyncRequest f cmd_buff w) = w'.
Proof.
  intros Hop Hread Hn.
  rewrite (File_SyncRequest_Read _ _ _ Hop). simpl. rewrite Hread. simpl.
  repeat split; try apply fn_lookup_insert.
  rewrite fn_lookup_insert_ne by done. rewrite fn_lookup_insert.
  unfold u32. apply Z.mod_small. lia.
Qed.

End DispatchClaims.

(** ** The registry and the handle table *)

Section ArchiveClaims.
Context {World : Type}.
Implicit Types (s : FS World) (factory : ArchiveFactory World)
  (backend : ArchiveBackend World) (path : Path) (handle : ArchiveHandle)
  (id_code : ArchiveIdCode).

Lemma with_host_id s : with_host s (host s) = s.
Proof. by destruct s. Qed.

Lemma with_id_code_map_id s : with_id_code_map s (id_code_map s) = s.
Proof. by destruct s. Qed.

Lemma same_object_true (a b : ArchiveBackend World) :
  same_object a b = true ↔ ab_this a = ab_this b.
Proof. unfold same_object. apply bool_decide_eq_true. Qed.

Lemma same_object_false (a b : ArchiveBackend World) :
  same_object a b = false ↔ ab_this a ≠ ab_this b.
Proof. unfold same_object. apply bool_decide_eq_false. Qed.

(** C1.  [RenameFileBetweenArchives] and [RenameDirectoryBetweenArchives]:
    when one of the two handles is not in the handle table both return
    [ERR_INVALID_HANDLE]; when the two handles resolve to the same backend
    object the result is [RESULT_SUCCESS] exactly when that backend's rename
    answers true; when they resolve to two different objects the result is
    the Unimplemented error, whatever the paths, and nothing is called. *)
Theorem rename_between_archives s (src dest : ArchiveHandle) (src_path dest_path : Path) :
  (GetArchive s src = None ∨ GetArchive s dest = None →
     RenameFileBetweenArchives src src_path dest dest_path s
       = Returns ERR_INVALID_HANDLE s
     ∧ RenameDirectoryBetweenArchives src src_path dest dest_path s
       = Returns ERR_INVALID_HANDLE s)
  ∧ (∀ a b, GetArchive s src = Some a → GetArchive s dest = Some b →
       ab_this a = ab_this b →
       (result_of (RenameFileBetweenArchives src src_path dest dest_path s)
          = Some RESULT_SUCCESS
        ↔ (ab_RenameFile a src_path dest_path (host s)).1 = true)
       ∧ (result_of (RenameDirectoryBetweenArchives src src_path dest dest_path s)
            = Some RESULT_SUCCESS
          ↔ (ab_RenameDirectory a src_path dest_path (host s)).1 = true)
       ∧ is_Some (result_of (RenameFileBetweenArchives src src_path dest dest_path s))
       ∧ is_Some (result_of (RenameDirectoryBetweenArchives src src_path dest dest_path s)))
  ∧ (∀ a b, GetArchive s src = Some a → GetArchive s dest = Some b →
       ab_this a ≠ ab_this b →
       RenameFileBetweenArchives src src_path dest dest_path s
         = Returns (UnimplementedFunction ErrorModule.FS) s
       ∧ RenameDirectoryBetweenArchives src src_path dest dest_path s
         = Returns (UnimplementedFunction ErrorModule.FS) s).
Proof.
  unfold RenameFileBetweenArchives, RenameDirectoryBetweenArchives.
  split; [|split].
  - intros [-> | Hd]; [done|]. rewrite Hd. by destruct (GetArchive s src).
  - intros a b -> -> Hsame. apply same_object_true in Hsame. rewrite Hsame.
    destruct (ab_RenameFile a _ _ _) as [[] ?];
      destruct (ab_RenameDirectory a _ _ _) as [[] ?]; simpl;
      repeat split; try done; eauto.
  - intros a b -> -> Hdiff. apply same_object_false in Hdiff. by rewrite Hdiff.
Qed.

(** What [FormatArchive] computes.  On an id code that is not registered it
    returns the Unimplemented error, the value the source marks as a
    placeholder ("TODO(Subv): Find the right error"), and leaves the state
    alone; on a registered id code it returns what the factory's [Format]
    returns for that path. *)
Theorem format_archive_result s id_code path :
  (id_code_map s !! id_code = None →
     FormatArchive id_code path s = Returns (UnimplementedFunction ErrorModule.FS) s)
  ∧ (∀ factory, id_code_map s !! id_code = Some factory →
       FormatArchive id_code path s
       = Returns (af_Format factory path (host s)).1
                 (with_host s (af_Format factory path (host s)).2)).
Proof.
  unfold FormatArchive. split.
  - by intros ->.
  - intros factory ->. by destruct (af_Format _ _ _).
Qed.

(** C5.  [OpenArchive] on an id code that is not registered returns the
    NotFound error (and changes nothing); when the id code is registered
    and the factory's [Open] fails, it returns that very error code. *)
Theorem open_archive_errors s id_code path :
  (id_code_map s !! id_code = None →
     OpenArchive id_code path s
     = Returns (Failed (mkResultCode ErrorDescription.NotFound ErrorModule.FS
                          ErrorSummary.NotFound ErrorLevel.Permanent)) s)
  ∧ (∀ factory code w, id_code_map s !! id_code = Some factory →
       af_Open factory path (host s) = (Failed code, w) →
       OpenArchive id_code path s = Returns (Failed code) (with_host s w)).
Proof.
  unfold OpenArchive. split.
  - by intros ->.
  - intros factory code w -> Hopen. by rewrite Hopen.
Qed.

(** C6.  [RegisterArchiveType] with an id code that is already registered
    stops at the failed assertion, the registry still holding the factory
    it held; with a new id code it inserts the factory and returns
    [RESULT_SUCCESS]. *)
Theorem register_archive_type s factory id_code :
  (∀ old, id_code_map s !! id_code = Some old →
     RegisterArchiveType factory id_code s
     = Aborts "Tried to register more than one archive with same id code" s
     ∧ id_code_map s !! id_code = Some old)
  ∧ (id_code_map s !! id_code = None →
       RegisterArchiveType factory id_code s
       = Returns RESULT_SUCCESS
           (with_id_code_map s (<[id_code := factory]> (id_code_map s)))
       ∧ <[id_code := factory]> (id_code_map s) !! id_code = Some factory).
Proof.
  unfold RegisterArchiveType, emplace. split.
  - intros old Hold. rewrite Hold. by rewrite with_id_code_map_id.
  - intros ->. split; [done|]. apply lookup_insert_eq.
Qed.

(** C7.  [CloseArchive] on a handle that is not in the handle table returns
    [ERR_INVALID_HANDLE] and changes nothing; on a handle that is in the
    table it returns [RESULT_SUCCESS] and removes that entry only, so that
    [GetArchive] of the handle is then null and closing it again returns
    [ERR_INVALID_HANDLE]. *)
Theorem close_archive_result s handle :
  (GetArchive s handle = None →
     CloseArchive handle s = Returns ERR_INVALID_HANDLE s)
  ∧ (∀ backend, GetArchive s handle = Some backend →
       ∃ s', CloseArchive handle s = Returns RESULT_SUCCESS s'
             ∧ GetArchive s' handle = None
             ∧ (∀ other, other ≠ handle → GetArchive s' other = GetArchive s other)
             ∧ CloseArchive handle s' = Returns ERR_INVALID_HANDLE s').
Proof.
  unfold CloseArchive, GetArchive. split.
  - by intros ->.
  - intros backend ->. eexists. split; [done|]. simpl.
    rewrite lookup_delete_eq. split; [done|]. split; [|done].
    intros other Hne. by rewrite lookup_delete_ne.
Qed.

End ArchiveClaims.

(** ** Handle allocation *)

Lemma u64_range (z : Z) : 0 ≤ u64 z < 2 ^ 64.
Proof. unfold u64. apply Z.mod_pos_bound. lia. Qed.

Lemma u64_small (z : Z) : 0 ≤ z < 2 ^ 64 → u64 z = z.
Proof. unfold u64. apply Z.mod_small. Qed.

Lemma u64_add_l (a b : Z) : u64 (u64 a + b) = u64 (a + b).
Proof. unfold u64. apply Zplus_mod_idemp_l. Qed.

(** Fewer than 2^64 consecutive increments never come back to a value
    already passed. *)
Lemma u64_offsets_inj (n i j : Z) :
  0 ≤ i < 2 ^ 64 → 0 ≤ j < 2 ^ 64 → u64 (n + i) = u64 (n + j) → i = j.
Proof.
  unfold u64. intros Hi Hj Heq.
  assert ((i - j) mod 2 ^ 64 = 0) as Hmod.
  { replace (i - j) with ((n + i) - (n + j)) by lia.
    rewrite Zminus_mod, Heq, Z.sub_diag. apply Zmod_0_l. }
  apply Z.mod_divide in Hmod as [q Hq]; [|lia]. nia.
Qed.

Section HandleAllocation.
Context {World : Type}.
Implicit Types (m : gmap Z (ArchiveBackend World)) (s : FS World).

(** The loop stops on a value that is not in the table. *)
Lemma skip_used_handles_free fuel m next handle :
  skip_used_handles fuel m next = Some handle → m !! handle = None.
Proof.
  revert next. induction fuel as [|fuel IH]; intros next; simpl; [done|].
  destruct (m !! next) eqn:Hnext; [by apply IH|]. congruence.
Qed.

(** When the loop is still running after [fuel] tests, the [fuel] values
    from [next] on are all in the table. *)
Lemma skip_used_handles_None fuel m next :
  0 ≤ next < 2 ^ 64 →
  skip_used_handles fuel m next = None →
  ∀ i : nat, (i < fuel)%nat → is_Some (m !! u64 (next + Z.of_nat i)).
Proof.
  revert next. induction fuel as [|fuel IH]; intros next Hnext Hskip i Hi; [lia|].
  simpl in Hskip. destruct (m !! next) as [b|] eqn:Hlook; [|done].
  destruct i as [|i].
  - rewrite Z.add_0_r, u64_small by done. by rewrite Hlook.
  - specialize (IH (u64 (next + 1)) (u64_range _) Hskip i ltac:(lia)).
    rewrite u64_add_l in IH.
    by replace (next + Z.of_nat (S i)) with (next + 1 + Z.of_nat i) by lia.
Qed.

(** The loop ends within [size m + 1] tests unless the table holds 2^64
    handles. *)
Lemma skip_used_handles_terminates m next :
  0 ≤ next < 2 ^ 64 →
  Z.of_nat (size m) < 2 ^ 64 →
  is_Some (skip_used_handles (S (size m)) m next).
Proof.
  intros Hnext Hsize.
  destruct (skip_used_handles (S (size m)) m next) as [h|] eqn:Hskip; [by eexists|].
  exfalso.
  pose proof (skip_used_handles_None _ _ _ Hnext Hskip) as Hused.
  set (tried := (λ i : nat, u64 (next + Z.of_nat i)) <$> seq 0 (S (size m))).
  assert (NoDup tried) as Hnodup.
  { apply NoDup_fmap_2_strong; [|apply NoDup_seq].
    intros i j Hi%elem_of_seq Hj%elem_of_seq Heq.
    apply u64_offsets_inj in Heq; lia. }
  assert (list_to_set tried ⊆ dom m) as Hsub.
  { intros h Hh. apply elem_of_list_to_set, list_elem_of_fmap in Hh as (i & -> & Hi).
    apply elem_of_dom, Hused. apply elem_of_seq in Hi. lia. }
  apply subseteq_size in Hsub.
  rewrite size_list_to_set, size_dom in Hsub by done.
  unfold tried in Hsub. rewrite length_fmap, length_seq in Hsub. lia.
Qed.

(** While some value from [next] up to 2^64-1 is free, the loop does not
    wrap around: it stops at or above [next]. *)
Lemma skip_used_handles_no_wrap fuel m next handle :
  0 ≤ next →
  (∃ k, next ≤ k < 2 ^ 64 ∧ m !! k = None) →
  skip_used_handles fuel m next = Some handle →
  next ≤ handle.
Proof.
  revert next. induction fuel as [|fuel IH]; intros next Hnext (k & Hk & Hfree); simpl; [done|].
  destruct (m !! next) eqn:Hlook; [|intros [= ->]; lia].
  assert (k ≠ next) by congruence.
  rewrite u64_small by lia. intros Hskip.
  apply IH in Hskip; [lia..|]. exists k. split; [lia|done].
Qed.

End HandleAllocation.

Section OpenArchiveClaims.
Context {World : Type}.
Implicit Types (s : FS World) (factory : ArchiveFactory World)
  (backend : ArchiveBackend World) (path : Path) (handle : ArchiveHandle)
  (id_code : ArchiveIdCode).

(** What a successful [OpenArchive] did: the handle was free, and the new
    table is the old one with that handle added. *)
Lemma OpenArchive_success s id_code path handle s' :
  OpenArchive id_code path s = Returns (MakeResult handle) s' →
  handle_map s !! handle = None
  ∧ (∃ backend, handle_map s' = <[handle := backend]> (handle_map s))
  ∧ next_handle s' = u64 (handle + 1)
  ∧ id_code_map s' = id_code_map s
  ∧ skip_used_handles (S (size (handle_map s))) (handle_map s) (next_handle s)
    = Some handle.
Proof.
  unfold OpenArchive. intros Hopen.
  destruct (id_code_map s !! id_code) as [factory|]; [|done].
  destruct (af_Open factory path (host s)) as [[backend|code] w]; [|done].
  destruct (skip_used_handles _ _ _) as [h|] eqn:Hskip; [|done].
  injection Hopen as -> <-. simpl.
  repeat split; eauto using skip_used_handles_free.
Qed.

(** C9, as the code has it.  When the factory opens the archive (and the
    table is not full), [OpenArchive] returns a handle that was in the table
    for no archive and now stands for the new one, all other handles
    resolving as before; that handle is nonzero whenever the counter
    [next_handle] is nonzero and some value from the counter up to 2^64-1
    is unused.  A second successful [OpenArchive] returns a different
    handle, and closing the first handle afterwards succeeds and leaves the
    second one resolvable. *)
Theorem open_archive_fresh_handle s id_code path factory backend w :
  id_code_map s !! id_code = Some factory →
  af_Open factory path (host s) = (MakeResult backend, w) →
  0 ≤ next_handle s < 2 ^ 64 →
  Z.of_nat (size (handle_map s)) < 2 ^ 64 →
  ∃ handle s1,
    OpenArchive id_code path s = Returns (MakeResult handle) s1
    ∧ GetArchive s handle = None
    ∧ GetArchive s1 handle = Some backend
    ∧ (∀ other, other ≠ handle → GetArchive s1 other = GetArchive s other)
    ∧ (0 < next_handle s →
       (∃ k, next_handle s ≤ k < 2 ^ 64 ∧ GetArchive s k = None) →
       handle ≠ 0)
    ∧ (∀ id_code2 path2 handle2 s2,
         OpenArchive id_code2 path2 s1 = Returns (MakeResult handle2) s2 →
         handle2 ≠ handle
         ∧ ∃ s3, CloseArchive handle s2 = Returns RESULT_SUCCESS s3
                 ∧ GetArchive s3 handle = None
                 ∧ GetArchive s3 handle2 = GetArchive s2 handle2
                 ∧ is_Some (GetArchive s3 handle2)).
Proof.
  intros Hreg Hopen Hnext Hsize.
  destruct (skip_used_handles_terminates (handle_map s) _ Hnext Hsize)
    as [handle Hskip].
  pose proof (skip_used_handles_free _ _ _ _ Hskip) as Hfree.
  eexists handle, _. split.
  { unfold OpenArchive. by rewrite Hreg, Hopen, Hskip. }
  unfold GetArchive. simpl. split; [done|].
  split; [apply lookup_insert_eq|].
  split; [intros other Hne; by apply lookup_insert_ne|].
  split.
  { intros Hpos Hunused.
    apply skip_used_handles_no_wrap in Hskip; [lia..|done]. }
  intros id_code2 path2 handle2 s2 Hopen2.
  apply OpenArchive_success in Hopen2 as (Hfree2 & [backend2 Hmap2] & _).
  simpl in Hfree2, Hmap2.
  assert (handle2 ≠ handle) as Hne.
  { intros ->. by rewrite lookup_insert_eq in Hfree2. }
  split; [done|].
  unfold CloseArchive. rewrite Hmap2.
  rewrite lookup_insert_ne, lookup_insert_eq by done.
  eexists. split; [done|]. simpl.
  rewrite lookup_delete_eq, lookup_delete_ne, lookup_insert_eq by done.
  by eauto.
Qed.

End OpenArchiveClaims.

(** ** Initialisation and the states reached from it *)

Section Reachability.
Context {World : Type}.
Implicit Types (s : FS World) (b : Boot World).

Lemma bind_Returns {A B} (m : M World A) (k : A → M World B) s r s' :
  bind World m k s = Returns r s' →
  ∃ a s1, m s = Returns a s1 ∧ k a s1 = Returns r s'.
Proof. unfold bind. destruct (m s) as [a s1| |]; [eauto|done..]. Qed.

Lemma RegisterArchiveType_table factory id_code s r s' :
  RegisterArchiveType factory id_code s = Returns r s' →
  next_handle s' = next_handle s ∧ handle_map s' = handle_map s.
Proof.
  unfold RegisterArchiveType.
  destruct (emplace _ _ _) as [m []]; [|done]. by intros [= _ <-].
Qed.

Lemma call_host_table {A} (f : World → A * World) s r s' :
  call_host World f s = Returns r s' →
  next_handle s' = next_handle s ∧ handle_map s' = handle_map s.
Proof. unfold call_host. destruct (f _). by intros [= _ <-]. Qed.

Lemma register_if_initialized_table init factory id_code s r s' :
  register_if_initialized World init factory id_code s = Returns r s' →
  next_handle s' = next_handle s ∧ handle_map s' = handle_map s.
Proof.
  unfold register_if_initialized, mbind, M_bind, mret, M_ret, ret.
  intros (ok & s1 & [E1 E1']%call_host_table & Hrest)%bind_Returns.
  destruct ok.
  - apply bind_Returns in Hrest
      as (? & s2 & [E2 E2']%RegisterArchiveType_table & [= _ <-]).
    split; congruence.
  - injection Hrest as _ <-. done.
Qed.

(** [ArchiveInit] leaves the counter at 1 and does not touch the handle
    table. *)
Lemma ArchiveInit_table b s0 s :
  ArchiveInit b s0 = Returns () s →
  next_handle s = 1 ∧ handle_map s = handle_map s0.
Proof.
  unfold ArchiveInit, mbind, M_bind, mret, M_ret, ret. intros Hinit.
  apply bind_Returns in Hinit as (? & s1 & [= _ <-] & Hinit).
  apply bind_Returns in Hinit as (? & s2 & [E2 E2']%call_host_table & Hinit).
  apply bind_Returns in Hinit as (? & s3 & [E3 E3']%register_if_initialized_table & Hinit).
  apply bind_Returns in Hinit as (? & s4 & [E4 E4']%RegisterArchiveType_table & Hinit).
  apply bind_Returns in Hinit as (? & s5 & [E5 E5']%register_if_initialized_table & Hinit).
  apply bind_Returns in Hinit as (? & s6 & [E6 E6']%register_if_initialized_table & Hinit).
  apply bind_Returns in Hinit as (? & s7 & [E7 E7']%RegisterArchiveType_table & Hinit).
  apply bind_Returns in Hinit as (? & s8 & [E8 E8']%RegisterArchiveType_table & [= <-]).
  simpl in *. split; congruence.
Qed.

Lemma OpenArchive_failure s id_code path code s' :
  OpenArchive id_code path s = Returns (Failed code) s' →
  next_handle s' = next_handle s ∧ handle_map s' = handle_map s.
Proof.
  unfold OpenArchive.
  destruct (id_code_map s !! id_code) as [factory|]; [|by intros [= _ <-]].
  destruct (af_Open factory path (host s)) as [[backend|c] w];
    [|by intros [= _ <-]].
  by destruct (skip_used_handles _ _ _).
Qed.

(** The counter stays a 64-bit value. *)
Lemma Reachable_counter_range b s :
  Reachable b s → 0 ≤ next_handle s < 2 ^ 64.
Proof.
  induction 1 as [w s Hinit|s id_code path r s' _ IH Hopen|s handle r s' _ IH Hclose].
  - apply ArchiveInit_table in Hinit as [-> _]. lia.
  - destruct r as [h|code].
    + apply OpenArchive_success in Hopen as (_ & _ & -> & _). apply u64_range.
    + apply OpenArchive_failure in Hopen as [-> _]. done.
  - unfold CloseArchive in Hclose.
    destruct (handle_map s !! handle); by injection Hclose as _ <-.
Qed.

Lemma ArchiveInit_counter_above_handles b w s :
  ArchiveInit b (at_startup w) = Returns () s → counter_above_handles s.
Proof.
  intros [Hnext Hmap]%ArchiveInit_table. split; [lia|].
  intros k. rewrite Hmap. simpl. rewrite lookup_empty. by intros [? ?].
Qed.

(** In that regime [OpenArchive] hands out the counter itself, which is
    nonzero, and the regime lasts until the counter reaches 2^64-1. *)
Lemma OpenArchive_counter_above_handles s id_code path handle s' :
  counter_above_handles s →
  OpenArchive id_code path s = Returns (MakeResult handle) s' →
  handle = next_handle s ∧ handle ≠ 0
  ∧ (next_handle s < 2 ^ 64 - 1 → counter_above_handles s').
Proof.
  intros [Hnext Hbelow] (_ & [backend Hmap] & Hnext' & _ & Hskip)%OpenArchive_success.
  assert (handle_map s !! next_handle s = None) as Hfree.
  { apply eq_None_not_Some. intros Hin%Hbelow. lia. }
  simpl in Hskip. rewrite Hfree in Hskip. injection Hskip as <-.
  split; [done|]. split; [lia|].
  intros Hroom. unfold counter_above_handles.
  rewrite Hnext', Hmap. rewrite u64_small by lia. split; [lia|].
  intros k [<-|[_ Hin]]%lookup_insert_is_Some; [lia|].
  apply Hbelow in Hin. lia.
Qed.

Lemma CloseArchive_counter_above_handles s handle r s' :
  counter_above_handles s →
  CloseArchive handle s = Returns r s' →
  counter_above_handles s'.
Proof.
  intros [Hnext Hbelow]. unfold CloseArchive.
  destruct (handle_map s !! handle) eqn:Hin; intros [= _ <-]; [|done].
  split; [done|]. simpl. intros k [_ Hk]%lookup_delete_is_Some. by apply Hbelow.
Qed.

End Reachability.

(** ** The scenario, run *)

Section ScenarioRuns.
Import Scenario.

(** With an empty table [OpenArchive] hands out the counter itself. *)
Lemma Scenario_open_on_empty_table (s : FS World) :
  id_code_map s !! SDMC = Some (a_factory RESULT_SUCCESS) →
  handle_map s = ∅ →
  ∃ s1 backend,
    OpenArchive SDMC EmptyPath s = Returns (MakeResult (next_handle s)) s1
    ∧ handle_map s1 = {[ next_handle s := backend ]}
    ∧ next_handle s1 = u64 (next_handle s + 1)
    ∧ id_code_map s1 = id_code_map s.
Proof.
  intros Hreg Hempty. unfold OpenArchive. rewrite Hreg, Hempty. simpl.
  rewrite lookup_empty. eexists _, _. split; [done|]. simpl.
  by rewrite insert_empty.
Qed.

(** Opening and closing an archive [k] times after [ArchiveInit] leaves an
    empty table and the counter at 1 + k, modulo 2^64. *)
Lemma Scenario_open_close_cycles (k : nat) :
  ∃ s : FS World,
    Reachable boot s
    ∧ next_handle s = u64 (1 + Z.of_nat k)
    ∧ handle_map s = ∅
    ∧ id_code_map s !! SDMC = Some (a_factory RESULT_SUCCESS).
Proof.
  induction k as [|k (s & Hreach & Hnext & Hempty & Hreg)].
  - assert (∃ s, ArchiveInit boot (at_startup []) = Returns () s
                 ∧ id_code_map s !! SDMC = Some (a_factory RESULT_SUCCESS))
      as (s & Hinit & Hreg).
    { eexists. split; [vm_compute; reflexivity|]. vm_compute. reflexivity. }
    exists s. split; [by eapply reach_init|].
    apply ArchiveInit_table in Hinit as Htable. destruct Htable as [-> ->].
    done.
  - destruct (Scenario_open_on_empty_table s Hreg Hempty)
      as (s1 & backend & Hopen & Hmap1 & Hnext1 & Hreg1).
    assert (∃ s2, CloseArchive (next_handle s) s1 = Returns RESULT_SUCCESS s2
                  ∧ handle_map s2 = ∅ ∧ next_handle s2 = next_handle s1
                  ∧ id_code_map s2 = id_code_map s1) as (s2 & Hclose & Hmap2 & Hnext2 & Hreg2).
    { unfold CloseArchive. rewrite Hmap1, lookup_singleton_eq.
      eexists. split; [done|]. simpl. by rewrite delete_singleton_eq. }
    exists s2. split; [|split; [|split]].
    + eapply reach_close; [|exact Hclose]. eapply reach_open; [|exact Hopen]. done.
    + rewrite Hnext2, Hnext1, Hnext, u64_add_l. f_equal. lia.
    + done.
    + by rewrite Hreg2, Hreg1.
Qed.

End ScenarioRuns.

Section Witnesses.
Import Scenario.

(** An opcode of neither table, sent to a file of priority 7 and to a
    directory. *)
Lemma unknown_opcode_keeps_state_witness :
  (∀ c, FileCommand.code c ≠ buffer_of [0x0BAD0000] 0%nat)
  ∧ (∀ c, DirectoryCommand.code c ≠ buffer_of [0x0BAD0000] 0%nat)
  ∧ sync_cmd_buff (File_SyncRequest a_file (buffer_of [0x0BAD0000]) []) 1%nat
    = 0xD8C047F4
  ∧ priority (sync_self (File_SyncRequest a_file (buffer_of [0x0BAD0000]) [])) = 7
  ∧ sync_world (File_SyncRequest a_file (buffer_of [0x0BAD0000]) []) = []
  ∧ sync_cmd_buff (Directory_SyncRequest a_directory (buffer_of [0x0BAD0000]) []) 1%nat
    = 0xD8C047F4
  ∧ sync_world (Directory_SyncRequest a_directory (buffer_of [0x0BAD0000]) []) = [].
Proof.
  assert (∀ c, FileCommand.code c ≠ buffer_of [0x0BAD0000] 0%nat) as Hf
    by (intros []; vm_compute; discriminate).
  assert (∀ c, DirectoryCommand.code c ≠ buffer_of [0x0BAD0000] 0%nat) as Hd
    by (intros []; vm_compute; discriminate).
  destruct (unknown_opcode_keeps_state a_file a_directory _ _ [] Hf Hd)
    as [(Hs & _ & Hp & Hw & _) (Hs' & _ & Hw' & _)].
  rewrite Hs, Hp, Hw, Hs', Hw'. repeat split; assumption.
Defined.

Lemma unknown_opcode_result_channels_witness :
  (∀ c, FileCommand.code c ≠ buffer_of [0x0BAD0000] 0%nat)
  ∧ (∀ c, DirectoryCommand.code c ≠ buffer_of [0x0BAD0000] 0%nat)
  ∧ sync_result (File_SyncRequest a_file (buffer_of [0x0BAD0000]) [])
    = Failed (UnimplementedFunction ErrorModule.FS)
  ∧ sync_result (Directory_SyncRequest a_directory (buffer_of [0x0BAD0000]) [])
    = MakeResult false
  ∧ sync_cmd_buff (Directory_SyncRequest a_directory (buffer_of [0x0BAD0000]) []) 1%nat
    = 0xD8C047F4.
Proof.
  assert (∀ c, FileCommand.code c ≠ buffer_of [0x0BAD0000] 0%nat) as Hf
    by (intros []; vm_compute; discriminate).
  assert (∀ c, DirectoryCommand.code c ≠ buffer_of [0x0BAD0000] 0%nat) as Hd
    by (intros []; vm_compute; discriminate).
  destruct (unknown_opcode_result_channels a_file a_directory _ _ [] Hf Hd)
    as (Hr & _ & Hr' & Hs').
  rewrite Hr, Hr', Hs'. repeat split; assumption.
Defined.

Lemma attributes_opcodes_unimplemented_witness :
  (buffer_of [0x08070040; 1] 0%nat = FileCommand.code FileCommand.GetAttributes
   ∨ buffer_of [0x08070040; 1] 0%nat = FileCommand.code FileCommand.SetAttributes)
  ∧ sync_result (File_SyncRequest a_file (buffer_of [0x08070040; 1]) [])
    = Failed (UnimplementedFunction ErrorModule.FS)
  ∧ sync_cmd_buff (File_SyncRequest a_file (buffer_of [0x08070040; 1]) []) 1%nat
    = 0xD8C047F4
  ∧ sync_world (File_SyncRequest a_file (buffer_of [0x08070040; 1]) []) = [].
Proof.
  assert (buffer_of [0x08070040; 1] 0%nat = FileCommand.code FileCommand.GetAttributes
          ∨ buffer_of [0x08070040; 1] 0%nat = FileCommand.code FileCommand.SetAttributes)
    as Hop by (right; reflexivity).
  destruct (attributes_opcodes_unimplemented a_file _ [] Hop) as (Hr & Hs & _ & _ & Hw).
  rewrite Hr, Hs, Hw. repeat split; assumption.
Defined.

(** A read of 100 bytes at offset 4 of a 10-byte file: 6 bytes, success. *)
Lemma read_reports_count_with_success_witness :
  buffer_of [0x080200C2; 4; 0; 100; 0; 0x1000] 0%nat
    = FileCommand.code FileCommand.Read
  ∧ fb_Read (file_backend a_file) (Z.lor 4 (Z.shiftl 0 32)) 100 0x1000 []
    = (6, ["Read"%string])
  ∧ 0 ≤ 6 < 2 ^ 32
  ∧ sync_cmd_buff
      (File_SyncRequest a_file (buffer_of [0x080200C2; 4; 0; 100; 0; 0x1000]) [])
      2%nat = 6
  ∧ sync_cmd_buff
      (File_SyncRequest a_file (buffer_of [0x080200C2; 4; 0; 100; 0; 0x1000]) [])
      1%nat = 0
  ∧ sync_result
      (File_SyncRequest a_file (buffer_of [0x080200C2; 4; 0; 100; 0; 0x1000]) [])
    = MakeResult false.
Proof.
  assert (0 ≤ 6 < 2 ^ 32) as Hn by lia.
  destruct (read_reports_count_with_success a_file
              (buffer_of [0x080200C2; 4; 0; 100; 0; 0x1000]) [] ["Read"%string] 6
              eq_refl eq_refl Hn) as (Hc & Hs & Hr & _).
  rewrite Hc, Hs, Hr. repeat split; try reflexivity; lia.
Defined.

End Witnesses.

Section ArchiveWitnesses.
Import Scenario.

Lemma rename_between_archives_witness :
  (GetArchive (three_archives 4) 1 = None ∨ GetArchive (three_archives 4) 9 = None)
  ∧ RenameFileBetweenArchives 1 (TextPath "/a") 9 (TextPath "/b") (three_archives 4)
    = Returns ERR_INVALID_HANDLE (three_archives 4)
  ∧ result_of (RenameFileBetweenArchives 1 (TextPath "/a") 1 (TextPath "/b")
                 (three_archives 4)) = Some RESULT_SUCCESS
  ∧ result_of (RenameDirectoryBetweenArchives 3 (TextPath "/a") 3 (TextPath "/b")
                 (three_archives 4)) ≠ Some RESULT_SUCCESS
  ∧ RenameFileBetweenArchives 1 (TextPath "/a") 2 (TextPath "/b") (three_archives 4)
    = Returns (UnimplementedFunction ErrorModule.FS) (three_archives 4)
  ∧ RenameDirectoryBetweenArchives 1 EmptyPath 2 EmptyPath (three_archives 4)
    = Returns (UnimplementedFunction ErrorModule.FS) (three_archives 4).
Proof.
  assert (GetArchive (three_archives 4) 1 = None ∨ GetArchive (three_archives 4) 9 = None)
    as Hmissing by (right; reflexivity).
  split; [exact Hmissing|].
  split.
  { exact (proj1 (proj1 (rename_between_archives (three_archives 4) 1 9
                           (TextPath "/a") (TextPath "/b")) Hmissing)). }
  split.
  { apply (proj1 (proj2 (rename_between_archives (three_archives 4) 1 1
                           (TextPath "/a") (TextPath "/b")))
             (archive_at 100 true) (archive_at 100 true) eq_refl eq_refl eq_refl).
    reflexivity. }
  split.
  { intros Hok.
    apply (proj1 (proj2 (rename_between_archives (three_archives 4) 3 3
                           (TextPath "/a") (TextPath "/b")))
             (archive_at 300 false) (archive_at 300 false) eq_refl eq_refl eq_refl)
      in Hok.
    discriminate Hok. }
  split.
  { apply (proj2 (proj2 (rename_between_archives (three_archives 4) 1 2
                           (TextPath "/a") (TextPath "/b")))
             (archive_at 100 true) (archive_at 200 true) eq_refl eq_refl).
    discriminate. }
  apply (proj2 (proj2 (rename_between_archives (three_archives 4) 1 2
                         EmptyPath EmptyPath))
           (archive_at 100 true) (archive_at 200 true) eq_refl eq_refl).
  discriminate.
Defined.

Lemma format_archive_result_witness :
  id_code_map (fs_with ∅ 1) !! RomFS = None
  ∧ FormatArchive RomFS EmptyPath (fs_with ∅ 1)
    = Returns (UnimplementedFunction ErrorModule.FS) (fs_with ∅ 1)
  ∧ id_code_map (fs_with ∅ 1) !! SDMC = Some (a_factory RESULT_SUCCESS)
  ∧ result_of (FormatArchive SDMC EmptyPath (fs_with ∅ 1)) = Some RESULT_SUCCESS.
Proof.
  split; [reflexivity|]. split.
  { exact (proj1 (format_archive_result (fs_with ∅ 1) RomFS EmptyPath) eq_refl). }
  split; [reflexivity|].
  rewrite (proj2 (format_archive_result (fs_with ∅ 1) SDMC EmptyPath)
             (a_factory RESULT_SUCCESS) eq_refl).
  reflexivity.
Defined.

Lemma open_archive_errors_witness :
  id_code_map (fs_with ∅ 1) !! RomFS = None
  ∧ result_of (OpenArchive RomFS EmptyPath (fs_with ∅ 1))
    = Some (Failed (mkResultCode ErrorDescription.NotFound ErrorModule.FS
                      ErrorSummary.NotFound ErrorLevel.Permanent))
  ∧ id_code_map (fs_with ∅ 1) !! SDMC = Some (a_factory RESULT_SUCCESS)
  ∧ af_Open (a_factory RESULT_SUCCESS) (TextPath "/nope") []
    = (Failed (mkResultCode ErrorDescription.FS_NotFound ErrorModule.FS
                 ErrorSummary.NotFound ErrorLevel.Status), ["Open"%string])
  ∧ result_of (OpenArchive SDMC (TextPath "/nope") (fs_with ∅ 1))
    = Some (Failed (mkResultCode ErrorDescription.FS_NotFound ErrorModule.FS
                      ErrorSummary.NotFound ErrorLevel.Status)).
Proof.
  split; [reflexivity|]. split.
  { by rewrite (proj1 (open_archive_errors (fs_with ∅ 1) RomFS EmptyPath) eq_refl). }
  split; [reflexivity|]. split; [reflexivity|].
  by rewrite (proj2 (open_archive_errors (fs_with ∅ 1) SDMC (TextPath "/nope"))
                _ _ _ eq_refl eq_refl).
Defined.

Lemma register_archive_type_witness :
  id_code_map (fs_with ∅ 1) !! SDMC = Some (a_factory RESULT_SUCCESS)
  ∧ RegisterArchiveType (a_factory ERR_INVALID_HANDLE) SDMC (fs_with ∅ 1)
    = Aborts "Tried to register more than one archive with same id code"
             (fs_with ∅ 1)
  ∧ id_code_map (fs_with ∅ 1) !! SaveData = None
  ∧ result_of (RegisterArchiveType (a_factory ERR_INVALID_HANDLE) SaveData
                 (fs_with ∅ 1)) = Some RESULT_SUCCESS.
Proof.
  split; [reflexivity|]. split.
  { exact (proj1 (proj1 (register_archive_type (fs_with ∅ 1)
                           (a_factory ERR_INVALID_HANDLE) SDMC)
                    (a_factory RESULT_SUCCESS) eq_refl)). }
  split; [reflexivity|].
  by rewrite (proj1 (proj2 (register_archive_type (fs_with ∅ 1)
                              (a_factory ERR_INVALID_HANDLE) SaveData) eq_refl)).
Defined.

Lemma close_archive_result_witness :
  GetArchive (three_archives 4) 9 = None
  ∧ CloseArchive 9 (three_archives 4) = Returns ERR_INVALID_HANDLE (three_archives 4)
  ∧ GetArchive (three_archives 4) 1 = Some (archive_at 100 true)
  ∧ ∃ s', CloseArchive 1 (three_archives 4) = Returns RESULT_SUCCESS s'
          ∧ GetArchive s' 1 = None
          ∧ GetArchive s' 2 = Some (archive_at 200 true)
          ∧ CloseArchive 1 s' = Returns ERR_INVALID_HANDLE s'.
Proof.
  split; [reflexivity|]. split.
  { exact (proj1 (close_archive_result (three_archives 4) 9) eq_refl). }
  split; [reflexivity|].
  destruct (proj2 (close_archive_result (three_archives 4) 1)
              (archive_at 100 true) eq_refl) as (s' & Hclose & Hgone & Hothers & Hagain).
  exists s'. split; [exact Hclose|]. split; [exact Hgone|].
  split; [|exact Hagain].
  rewrite (Hothers 2) by discriminate. reflexivity.
Defined.

(** The counter lags behind the table (1, with handles 1, 2 and 3 in use):
    the loop skips to 4. *)
Lemma open_archive_fresh_handle_witness :
  id_code_map (three_archives 1) !! SDMC = Some (a_factory RESULT_SUCCESS)
  ∧ af_Open (a_factory RESULT_SUCCESS) EmptyPath (host (three_archives 1))
    = (MakeResult (archive_at 0 true), ["Open"%string])
  ∧ 0 ≤ next_handle (three_archives 1) < 2 ^ 64
  ∧ Z.of_nat (size (handle_map (three_archives 1))) < 2 ^ 64
  ∧ ∃ handle s1,
      OpenArchive SDMC EmptyPath (three_archives 1) = Returns (MakeResult handle) s1
      ∧ GetArchive (three_archives 1) handle = None
      ∧ GetArchive s1 handle = Some (archive_at 0 true)
      ∧ handle ≠ 0.
Proof.
  assert (0 ≤ next_handle (three_archives 1) < 2 ^ 64) as Hnext by (simpl; lia).
  assert (Z.of_nat (size (handle_map (three_archives 1))) < 2 ^ 64) as Hsize
    by (vm_compute; reflexivity).
  split; [reflexivity|]. split; [reflexivity|].
  split; [exact Hnext|]. split; [exact Hsize|].
  destruct (open_archive_fresh_handle (three_archives 1) SDMC EmptyPath
              (a_factory RESULT_SUCCESS) (archive_at 0 true) ["Open"%string]
              eq_refl eq_refl Hnext Hsize)
    as (handle & s1 & Hopen & Hfree & Hnew & _ & Hnonzero & _).
  exists handle, s1. split; [exact Hopen|]. split; [exact Hfree|].
  split; [exact Hnew|].
  apply Hnonzero; [simpl; lia|].
  exists 4. split; [simpl; lia|reflexivity].
Defined.

End ArchiveWitnesses.

(** ** Where the code departs from the documented behaviour *)

Section Departures.
Import Scenario.

(** C2.  [FormatArchive] on an id code that is not registered should fail
    with a NotFound error, and does not: with only SDMC registered,
    formatting RomFS returns the Unimplemented error (description
    NotImplemented, summary NotSupported), the placeholder of
    archive.cpp:403, while [OpenArchive] of the same id code in the same
    state returns the NotFound error (NotFound, FS, NotFound, Permanent). *)
Lemma format_unregistered_is_not_NotFound :
  id_code_map (fs_with ∅ 1) !! RomFS = None
  ∧ result_of (FormatArchive RomFS EmptyPath (fs_with ∅ 1))
    = Some (UnimplementedFunction ErrorModule.FS)
  ∧ description (UnimplementedFunction ErrorModule.FS) = ErrorDescription.NotImplemented
  ∧ summary (UnimplementedFunction ErrorModule.FS) = ErrorSummary.NotSupported
  ∧ result_of (OpenArchive RomFS EmptyPath (fs_with ∅ 1))
    = Some (Failed (mkResultCode ErrorDescription.NotFound ErrorModule.FS
                      ErrorSummary.NotFound ErrorLevel.Permanent))
  ∧ result_of (FormatArchive RomFS EmptyPath (fs_with ∅ 1))
    ≠ Some (mkResultCode ErrorDescription.NotFound ErrorModule.FS
              ErrorSummary.NotFound ErrorLevel.Permanent).
Proof. repeat split; try reflexivity. vm_compute. discriminate. Qed.

(** C3 as stated fails: dispatching GetAttributes (0x08060000) or
    SetAttributes (0x08070040) to an open file returns the Unimplemented
    error and stores its word, not the success sentinel, in the status
    word. *)
Lemma attributes_opcodes_do_not_succeed :
  sync_result (File_SyncRequest a_file (buffer_of [0x08060000]) [])
    = Failed (UnimplementedFunction ErrorModule.FS)
  ∧ sync_cmd_buff (File_SyncRequest a_file (buffer_of [0x08060000]) []) 1%nat
    = 0xD8C047F4
  ∧ sync_result (File_SyncRequest a_file (buffer_of [0x08070040; 1]) [])
    = Failed (UnimplementedFunction ErrorModule.FS)
  ∧ sync_cmd_buff (File_SyncRequest a_file (buffer_of [0x08070040; 1]) []) 1%nat
    = 0xD8C047F4
  ∧ raw RESULT_SUCCESS = 0
  ∧ sync_cmd_buff (File_SyncRequest a_file (buffer_of [0x08060000]) []) 1%nat
    ≠ raw RESULT_SUCCESS
  ∧ sync_cmd_buff (File_SyncRequest a_file (buffer_of [0x08070040; 1]) []) 1%nat
    ≠ raw RESULT_SUCCESS.
Proof. repeat split; try reflexivity; vm_compute; discriminate. Qed.

(** The counter lagging behind the table: handle 4 is handed out. *)
Example open_archive_skips_used_handles :
  result_of (OpenArchive SDMC EmptyPath (three_archives 1)) = Some (MakeResult 4).
Proof. vm_compute. reflexivity. Qed.

(** C9 as stated fails: with the counter at 0 and handle 0 unused,
    [OpenArchive] succeeds and returns handle 0; and [ArchiveInit] followed
    by 2^64-1 rounds of opening and closing an archive leads to such a
    state. *)
Lemma open_archive_returns_handle_zero :
  result_of (OpenArchive SDMC EmptyPath (fs_with ∅ 0)) = Some (MakeResult 0)
  ∧ ∃ s : FS World,
      Reachable boot s
      ∧ result_of (OpenArchive SDMC EmptyPath s) = Some (MakeResult 0).
Proof.
  split; [vm_compute; reflexivity|].
  destruct (Scenario_open_close_cycles (Z.to_nat (2 ^ 64 - 1)))
    as (s & Hreach & Hnext & Hempty & Hreg).
  rewrite Z2Nat.id in Hnext by lia.
  replace (u64 (1 + (2 ^ 64 - 1))) with 0 in Hnext by reflexivity.
  exists s. split; [exact Hreach|].
  destruct (Scenario_open_on_empty_table s Hreg Hempty) as (s1 & b & Hopen & _).
  rewrite Hopen, Hnext. reflexivity.
Qed.

End Departures.

(** * Further properties of the dispatchers *)

Lemma FileCommand_of_word_Some (w : Z) (c : FileCommand.t) :
  FileCommand.of_word w = Some c → w = FileCommand.code c.
Proof.
  unfold FileCommand.of_word. intros [_ Hc]%List.find_some.
  by apply bool_decide_eq_true in Hc.
Qed.

Lemma DirectoryCommand_of_word_Some (w : Z) (c : DirectoryCommand.t) :
  DirectoryCommand.of_word w = Some c → w = DirectoryCommand.code c.
Proof.
  unfold DirectoryCommand.of_word. intros [_ Hc]%List.find_some.
  by apply bool_decide_eq_true in Hc.
Qed.

(** Two command words, low word first, are the 64-bit value
    [lo + 2^32 * hi]. *)
Lemma u64_of_words (lo hi : Z) :
  0 ≤ lo < 2 ^ 32 → 0 ≤ hi < 2 ^ 32 →
  Z.lor lo (Z.shiftl hi 32) = lo + 2 ^ 32 * hi
  ∧ 0 ≤ lo + 2 ^ 32 * hi < 2 ^ 64.
Proof.
  intros Hlo Hhi. split; [|lia].
  rewrite Z.shiftl_mul_pow2 by lia.
  assert (Z.land lo (hi * 2 ^ 32) = 0) as Hland.
  { apply Z.bits_inj'. intros n Hn. rewrite Z.land_spec, Z.bits_0.
    destruct (decide (n < 32)) as [Hlt|Hge].
    - by rewrite (Z.mul_pow2_bits_low hi 32 n), andb_false_r by lia.
    - replace lo with (lo mod 2 ^ 32) by (apply Z.mod_small; lia).
      by rewrite Z.mod_pow2_bits_high by lia. }
  rewrite <- (Z.lxor_lor _ _ Hland), <- (Z.add_nocarry_lxor _ _ Hland). lia.
Qed.

Section DispatchExtras.
Context {World : Type} `{ResultEncoding} `{Kernel World}.

(** X1.  Every file dispatch ends in one of two ways.  Either the opcode is
    one of the nine the switch handles, the function returns a value and
    the status word is the success sentinel (whatever the backend answered:
    a false [SetSize] or [Close] is not reported); or the opcode is none of
    the nine, the function returns the Unimplemented error, stores it in the
    status word and touches neither the resource nor the world. *)
Theorem file_dispatch_outcome (f : File World) (cmd_buff : CommandBuffer) (w : World) :
  (sync_result (File_SyncRequest f cmd_buff w) = MakeResult false
   ∧ sync_cmd_buff (File_SyncRequest f cmd_buff w) 1%nat = raw RESULT_SUCCESS
   ∧ ∃ c, c ∈ [FileCommand.Read; FileCommand.Write; FileCommand.GetSize;
               FileCommand.SetSize; FileCommand.Close; FileCommand.Flush;
               FileCommand.OpenLinkFile; FileCommand.SetPriority;
               FileCommand.GetPriority]
          ∧ cmd_buff 0%nat = FileCommand.code c)
  ∨ (sync_result (File_SyncRequest f cmd_buff w)
       = Failed (UnimplementedFunction ErrorModule.FS)
     ∧ sync_cmd_buff (File_SyncRequest f cmd_buff w) 1%nat
       = raw (UnimplementedFunction ErrorModule.FS)
     ∧ sync_self (File_SyncRequest f cmd_buff w) = f
     ∧ sync_world (File_SyncRequest f cmd_buff w) = w
     ∧ ∀ c, c ∈ [FileCommand.Read; FileCommand.Write; FileCommand.GetSize;
                 FileCommand.SetSize; FileCommand.Close; FileCommand.Flush;
                 FileCommand.OpenLinkFile; FileCommand.SetPriority;
                 FileCommand.GetPriority]
            → cmd_buff 0%nat ≠ FileCommand.code c).
Proof.
  unfold File_SyncRequest.
  destruct (FileCommand.of_word (cmd_buff 0%nat)) as [c|] eqn:Hop.
  - apply FileCommand_of_word_Some in Hop.
    destruct c;
      (* the nine handled opcodes *)
      try (left;
           repeat match goal with |- context [let '(_, _) := ?p in _] => destruct p end;
           simpl; split; [done|]; split; [apply fn_lookup_insert|];
           eexists; split; [|exact Hop]; set_solver);
      (* enumerators without a case *)
      right; simpl; (repeat split; try apply fn_lookup_insert);
      intros c Hc; rewrite Hop;
      repeat (apply elem_of_cons in Hc as [->|Hc]; [discriminate|]);
      by apply elem_of_nil in Hc.
  - right. simpl. repeat split; try apply fn_lookup_insert.
    intros c _ Hcode. rewrite Hcode, FileCommand_of_word_code in Hop. done.
Qed.

(** X2.  [Directory::SyncRequest] never returns an error: its result is a
    value for every opcode.  The status word is the success sentinel when
    the opcode is Read or Close and the Unimplemented error otherwise, in
    which case the directory and the world are untouched. *)
Theorem directory_dispatch_outcome (d : Directory World) (cmd_buff : CommandBuffer)
    (w : World) :
  sync_result (Directory_SyncRequest d cmd_buff w) = MakeResult false
  ∧ sync_self (Directory_SyncRequest d cmd_buff w) = d
  ∧ ((sync_cmd_buff (Directory_SyncRequest d cmd_buff w) 1%nat = raw RESULT_SUCCESS
      ∧ (cmd_buff 0%nat = DirectoryCommand.code DirectoryCommand.Read
         ∨ cmd_buff 0%nat = DirectoryCommand.code DirectoryCommand.Close))
     ∨ (sync_cmd_buff (Directory_SyncRequest d cmd_buff w) 1%nat
          = raw (UnimplementedFunction ErrorModule.FS)
        ∧ sync_world (Directory_SyncRequest d cmd_buff w) = w
        ∧ cmd_buff 0%nat ≠ DirectoryCommand.code DirectoryCommand.Read
        ∧ cmd_buff 0%nat ≠ DirectoryCommand.code DirectoryCommand.Close)).
Proof.
  unfold Directory_SyncRequest.
  destruct (DirectoryCommand.of_word (cmd_buff 0%nat)) as [c|] eqn:Hop.
  - apply DirectoryCommand_of_word_Some in Hop.
    destruct c;
      repeat match goal with |- context [let '(_, _) := ?p in _] => destruct p end;
      simpl; (split; [done|]); (split; [done|]);
      try (left; split; [apply fn_lookup_insert|]; by eauto);
      right; rewrite Hop; repeat split; try apply fn_lookup_insert; discriminate.
  - split; [done|]. split; [done|]. right.
    split; [apply fn_lookup_insert|]. split; [done|].
    split; intros Hcode; by rewrite Hcode, DirectoryCommand_of_word_code in Hop.
Qed.

(** X3.  A file dispatch writes response words 1, 2 and 3 only, never
    replaces the path or the backend of the resource, and changes the
    priority for no opcode but SetPriority. *)
Theorem file_dispatch_frame (f : File World) (cmd_buff : CommandBuffer) (w : World) :
  file_path (sync_self (File_SyncRequest f cmd_buff w)) = file_path f
  ∧ file_backend (sync_self (File_SyncRequest f cmd_buff w)) = file_backend f
  ∧ (cmd_buff 0%nat ≠ FileCommand.code FileCommand.SetPriority →
     sync_self (File_SyncRequest f cmd_buff w) = f)
  ∧ (∀ i, i ≠ 1%nat → i ≠ 2%nat → i ≠ 3%nat →
     sync_cmd_buff (File_SyncRequest f cmd_buff w) i = cmd_buff i).
Proof.
  unfold File_SyncRequest.
  destruct (FileCommand.of_word (cmd_buff 0%nat)) as [c|] eqn:Hop.
  - apply FileCommand_of_word_Some in Hop.
    destruct c;
      repeat match goal with |- context [let '(_, _) := ?p in _] => destruct p end;
      simpl; repeat split; try done;
      try (intros i H1 H2 H3; by rewrite ?fn_lookup_insert_ne by done).
  - simpl. repeat split; try done.
    intros i H1 H2 H3. by rewrite fn_lookup_insert_ne by done.
Qed.

(** X4.  A directory dispatch writes response words 1 and 2 only. *)
Theorem directory_dispatch_frame (d : Directory World) (cmd_buff : CommandBuffer)
    (w : World) (i : nat) :
  i ≠ 1%nat → i ≠ 2%nat →
  sync_cmd_buff (Directory_SyncRequest d cmd_buff w) i = cmd_buff i.
Proof.
  intros H1 H2. unfold Directory_SyncRequest.
  destruct (DirectoryCommand.of_word (cmd_buff 0%nat)) as [[]|];
    repeat match goal with |- context [let '(_, _) := ?p in _] => destruct p end;
    simpl; by rewrite ?fn_lookup_insert_ne by done.
Qed.

End DispatchExtras.

(** Reads a word back from a buffer after stores at known indices. *)
Ltac read_back :=
  repeat first [ rewrite fn_lookup_insert
               | rewrite fn_lookup_insert_ne by done ].

Section RequestExtras.
Context {World : Type} `{ResultEncoding} `{Kernel World}.

Lemma File_SyncRequest_other_than_SetPriority (f : File World) cmd_buff w :
  cmd_buff 0%nat ≠ FileCommand.code FileCommand.SetPriority →
  sync_self (File_SyncRequest f cmd_buff w) = f.
Proof.
  intros Hne. unfold File_SyncRequest.
  destruct (FileCommand.of_word (cmd_buff 0%nat)) as [c|] eqn:Hop; [|done].
  apply FileCommand_of_word_Some in Hop.
  destruct c;
    repeat match goal with |- context [let '(_, _) := ?p in _] => destruct p end;
    done.
Qed.

Lemma File_SyncRequests_keep_resource (requests : list CommandBuffer)
    (f : File World) w :
  Forall (λ cmd_buff : CommandBuffer,
            cmd_buff 0%nat ≠ FileCommand.code FileCommand.SetPriority) requests →
  (File_SyncRequests requests f w).1 = f.
Proof.
  unfold File_SyncRequests. intros Hall. revert w.
  induction Hall as [|cmd_buff requests Hne _ IH]; intros w; [done|].
  simpl. rewrite (File_SyncRequest_other_than_SetPriority _ _ _ Hne). apply IH.
Qed.

(** X5.  SetPriority then GetPriority is a round trip: after a SetPriority
    request, and any number of further requests none of which is a
    SetPriority, a GetPriority request answers the very word the
    SetPriority request carried in [cmd_buff[1]], with the success status
    and without a call to the backend. *)
Theorem priority_round_trip (f : File World) (w : World)
    (set_buff get_buff : CommandBuffer) (between : list CommandBuffer) :
  set_buff 0%nat = FileCommand.code FileCommand.SetPriority →
  get_buff 0%nat = FileCommand.code FileCommand.GetPriority →
  Forall (λ cmd_buff : CommandBuffer,
            cmd_buff 0%nat ≠ FileCommand.code FileCommand.SetPriority) between →
  sync_cmd_buff
    (File_SyncRequest (File_SyncRequests (set_buff :: between) f w).1 get_buff
       (File_SyncRequests (set_buff :: between) f w).2) 2%nat
  = set_buff 1%nat
  ∧ sync_cmd_buff
      (File_SyncRequest (File_SyncRequests (set_buff :: between) f w).1 get_buff
         (File_SyncRequests (set_buff :: between) f w).2) 1%nat
    = raw RESULT_SUCCESS
  ∧ sync_world
      (File_SyncRequest (File_SyncRequests (set_buff :: between) f w).1 get_buff
         (File_SyncRequests (set_buff :: between) f w).2)
    = (File_SyncRequests (set_buff :: between) f w).2
  ∧ sync_world (File_SyncRequest f set_buff w) = w.
Proof.
  intros Hset Hget Hbetween.
  assert (File_SyncRequest f set_buff w
          = sync_no_error (set_priority f (set_buff 1%nat)) set_buff w) as Hfirst.
  { unfold File_SyncRequest. by rewrite Hset, FileCommand_of_word_code. }
  assert (∀ f' w', File_SyncRequest f' get_buff w'
                   = sync_no_error f' (<[2%nat := priority f']> get_buff) w') as Hlast.
  { intros f' w'. unfold File_SyncRequest. by rewrite Hget, FileCommand_of_word_code. }
  rewrite Hlast. simpl.
  change (File_SyncRequests (set_buff :: between) f w)
    with (File_SyncRequests between (sync_self (File_SyncRequest f set_buff w))
            (sync_world (File_SyncRequest f set_buff w))).
  rewrite (File_SyncRequests_keep_resource _ _ _ Hbetween), Hfirst. simpl.
  split; [|split; [apply fn_lookup_insert|done]].
  rewrite fn_lookup_insert_ne by done. apply fn_lookup_insert.
Qed.

(** X6.  GetSize answers a 64-bit size as two words, low word in
    [cmd_buff[2]] and high word in [cmd_buff[3]]; a SetSize request that
    carries those two words in [cmd_buff[1]] and [cmd_buff[2]] hands the
    backend exactly that size.  Both end with the success status. *)
Theorem get_size_then_set_size (f : File World) (w w1 : World) (size : Z)
    (get_buff set_buff : CommandBuffer) :
  get_buff 0%nat = FileCommand.code FileCommand.GetSize →
  fb_GetSize (file_backend f) w = (size, w1) →
  0 ≤ size < 2 ^ 64 →
  set_buff 0%nat = FileCommand.code FileCommand.SetSize →
  set_buff 1%nat = sync_cmd_buff (File_SyncRequest f get_buff w) 2%nat →
  set_buff 2%nat = sync_cmd_buff (File_SyncRequest f get_buff w) 3%nat →
  sync_cmd_buff (File_SyncRequest f get_buff w) 2%nat = size mod 2 ^ 32
  ∧ sync_cmd_buff (File_SyncRequest f get_buff w) 3%nat = size / 2 ^ 32
  ∧ sync_cmd_buff (File_SyncRequest f get_buff w) 1%nat = raw RESULT_SUCCESS
  ∧ sync_world (File_SyncRequest f get_buff w) = w1
  ∧ sync_world (File_SyncRequest f set_buff w1)
    = (fb_SetSize (file_backend f) size w1).2
  ∧ sync_cmd_buff (File_SyncRequest f set_buff w1) 1%nat = raw RESULT_SUCCESS.
Proof.
  intros Hget Hsize Hrange Hset.
  assert (File_SyncRequest f get_buff w
          = sync_no_error f
              (<[3%nat := u32 (Z.shiftr (u64 size) 32)]>
                 (<[2%nat := u32 (u64 size)]> get_buff)) w1) as ->.
  { unfold File_SyncRequest. by rewrite Hget, FileCommand_of_word_code, Hsize. }
  simpl. read_back.
  rewrite u64_small by done. unfold u32. rewrite Z.shiftr_div_pow2 by lia.
  assert (0 ≤ size / 2 ^ 32 < 2 ^ 32) as Hhigh.
  { split; [apply Z.div_pos; lia|]. apply Z.div_lt_upper_bound; lia. }
  rewrite (Z.mod_small (size / 2 ^ 32)) by done.
  intros Hlo Hhi.
  assert (Z.lor (set_buff 1%nat) (Z.shiftl (set_buff 2%nat) 32) = size) as Hdecoded.
  { rewrite Hlo, Hhi.
    destruct (u64_of_words (size mod 2 ^ 32) (size / 2 ^ 32)) as [-> _];
      [apply Z.mod_pos_bound; lia|done|].
    pose proof (Z.div_mod size (2 ^ 32)). lia. }
  unfold File_SyncRequest. rewrite Hset, FileCommand_of_word_code, Hdecoded.
  destruct (fb_SetSize _ _ _) as [ok w2]. simpl.
  repeat split; apply fn_lookup_insert.
Qed.

(** X7.  A Write request is decoded as offset [cmd_buff[1] + 2^32 *
    cmd_buff[2]], length [cmd_buff[3]], flush [cmd_buff[4]] and source
    address [cmd_buff[6]]; the count the backend returns goes to
    [cmd_buff[2]] and the status is success, also when the count is below
    the length. *)
Theorem write_request (f : File World) (cmd_buff : CommandBuffer) (w w' : World)
    (n : Z) :
  cmd_buff 0%nat = FileCommand.code FileCommand.Write →
  0 ≤ cmd_buff 1%nat < 2 ^ 32 →
  0 ≤ cmd_buff 2%nat < 2 ^ 32 →
  fb_Write (file_backend f) (cmd_buff 1%nat + 2 ^ 32 * cmd_buff 2%nat)
    (cmd_buff 3%nat) (cmd_buff 4%nat) (cmd_buff 6%nat) w = (n, w') →
  0 ≤ n < 2 ^ 32 →
  sync_cmd_buff (File_SyncRequest f cmd_buff w) 2%nat = n
  ∧ sync_cmd_buff (File_SyncRequest f cmd_buff w) 1%nat = raw RESULT_SUCCESS
  ∧ sync_result (File_SyncRequest f cmd_buff w) = MakeResult false
  ∧ sync_self (File_SyncRequest f cmd_buff w) = f
  ∧ sync_world (File_SyncRequest f cmd_buff w) = w'.
Proof.
  intros Hop Hlo Hhi Hwrite Hn. unfold File_SyncRequest.
  rewrite Hop, FileCommand_of_word_code.
  destruct (u64_of_words _ _ Hlo Hhi) as [-> _]. rewrite Hwrite. simpl.
  repeat split; try apply fn_lookup_insert.
  rewrite fn_lookup_insert_ne by done. rewrite fn_lookup_insert.
  unfold u32. apply Z.mod_small. lia.
Qed.

(** X8.  A Read request is decoded as offset [cmd_buff[1] + 2^32 *
    cmd_buff[2]], length [cmd_buff[3]] and destination address
    [cmd_buff[5]]; the opcode word and the request words above 3 are left
    as they were. *)
Theorem read_request (f : File World) (cmd_buff : CommandBuffer) (w : World) :
  cmd_buff 0%nat = FileCommand.code FileCommand.Read →
  0 ≤ cmd_buff 1%nat < 2 ^ 32 →
  0 ≤ cmd_buff 2%nat < 2 ^ 32 →
  sync_world (File_SyncRequest f cmd_buff w)
  = (fb_Read (file_backend f) (cmd_buff 1%nat + 2 ^ 32 * cmd_buff 2%nat)
       (cmd_buff 3%nat) (cmd_buff 5%nat) w).2
  ∧ sync_cmd_buff (File_SyncRequest f cmd_buff w) 2%nat
    = (fb_Read (file_backend f) (cmd_buff 1%nat + 2 ^ 32 * cmd_buff 2%nat)
         (cmd_buff 3%nat) (cmd_buff 5%nat) w).1 mod 2 ^ 32
  ∧ sync_cmd_buff (File_SyncRequest f cmd_buff w) 3%nat = cmd_buff 3%nat
  ∧ sync_cmd_buff (File_SyncRequest f cmd_buff w) 5%nat = cmd_buff 5%nat.
Proof.
  intros Hop Hlo Hhi. unfold File_SyncRequest.
  rewrite Hop, FileCommand_of_word_code.
  destruct (u64_of_words _ _ Hlo Hhi) as [-> _].
  destruct (fb_Read _ _ _ _ _) as [n w']. simpl.
  by read_back.
Qed.

(** X9.  A directory Read request hands the backend the count
    [cmd_buff[1]] and the address [cmd_buff[3]]; the number of entries the
    backend read goes to [cmd_buff[2]] and the status is success, also when
    fewer entries were read than asked for. *)
Theorem directory_read_request (d : Directory World) (cmd_buff : CommandBuffer)
    (w w' : World) (n : Z) :
  cmd_buff 0%nat = DirectoryCommand.code DirectoryCommand.Read →
  db_Read (directory_backend d) (cmd_buff 1%nat) (cmd_buff 3%nat) w = (n, w') →
  0 ≤ n < 2 ^ 32 →
  sync_cmd_buff (Directory_SyncRequest d cmd_buff w) 2%nat = n
  ∧ sync_cmd_buff (Directory_SyncRequest d cmd_buff w) 1%nat = raw RESULT_SUCCESS
  ∧ sync_result (Directory_SyncRequest d cmd_buff w) = MakeResult false
  ∧ sync_world (Directory_SyncRequest d cmd_buff w) = w'.
Proof.
  intros Hop Hread Hn. unfold Directory_SyncRequest.
  rewrite Hop, DirectoryCommand_of_word_code, Hread. simpl.
  repeat split; try apply fn_lookup_insert.
  rewrite fn_lookup_insert_ne by done. rewrite fn_lookup_insert.
  unfold u32. apply Z.mod_small. lia.
Qed.

(** X10.  OpenLinkFile is reported as success whether or not the kernel
    handle table could create a handle: [cmd_buff[3]] is the new handle, or
    [INVALID_HANDLE] when the creation failed; the file and its backend are
    not touched. *)
Theorem open_link_file_request (f : File World) (cmd_buff : CommandBuffer)
    (w : World) :
  cmd_buff 0%nat = FileCommand.code FileCommand.OpenLinkFile →
  sync_result (File_SyncRequest f cmd_buff w) = MakeResult false
  ∧ sync_cmd_buff (File_SyncRequest f cmd_buff w) 1%nat = raw RESULT_SUCCESS
  ∧ sync_self (File_SyncRequest f cmd_buff w) = f
  ∧ sync_world (File_SyncRequest f cmd_buff w) = (g_handle_table_Create World f w).2
  ∧ sync_cmd_buff (File_SyncRequest f cmd_buff w) 3%nat
    = match (g_handle_table_Create World f w).1 with
      | MakeResult handle => handle mod 2 ^ 32
      | Failed _ => INVALID_HANDLE World mod 2 ^ 32
      end.
Proof.
  intros Hop. unfold File_SyncRequest.
  rewrite Hop, FileCommand_of_word_code.
  destruct (g_handle_table_Create World f w) as [[handle|code] w']; simpl;
    repeat split; by read_back.
Qed.

End RequestExtras.

(** * Further properties of the archive operations *)

Section ArchiveOperationsExtras.
Context {World : Type} `{BackendOperations World}.
Implicit Types (s : FS World) (path : Path) (handle : ArchiveHandle).

(** X11.  Each of the six operations that take one archive handle returns
    [ERR_INVALID_HANDLE] when the handle is not in the handle table, and
    then calls no backend and changes nothing. *)
Theorem missing_handle_is_invalid s handle path (mode : Mode) (file_size : Z) :
  GetArchive s handle = None →
  OpenFileFromArchive handle path mode s = Returns (Failed ERR_INVALID_HANDLE) s
  ∧ DeleteFileFromArchive handle path s = Returns ERR_INVALID_HANDLE s
  ∧ DeleteDirectoryFromArchive handle path s = Returns ERR_INVALID_HANDLE s
  ∧ CreateFileInArchive handle path file_size s = Returns ERR_INVALID_HANDLE s
  ∧ CreateDirectoryFromArchive handle path s = Returns ERR_INVALID_HANDLE s
  ∧ OpenDirectoryFromArchive handle path s = Returns (Failed ERR_INVALID_HANDLE) s.
Proof.
  intros Hmissing.
  unfold OpenFileFromArchive, DeleteFileFromArchive, DeleteDirectoryFromArchive,
    CreateFileInArchive, CreateDirectoryFromArchive, OpenDirectoryFromArchive.
  by rewrite Hmissing.
Qed.

(** X12.  Once [CloseArchive] has succeeded on a handle, every operation on
    that handle fails with [ERR_INVALID_HANDLE] and changes nothing: the six
    single-handle operations, a second [CloseArchive], and both renames
    with the handle as source or as destination. *)
Theorem closed_handle_is_invalid s s' handle (other : ArchiveHandle)
    (path path' : Path) (mode : Mode) (file_size : Z) :
  CloseArchive handle s = Returns RESULT_SUCCESS s' →
  OpenFileFromArchive handle path mode s' = Returns (Failed ERR_INVALID_HANDLE) s'
  ∧ DeleteFileFromArchive handle path s' = Returns ERR_INVALID_HANDLE s'
  ∧ DeleteDirectoryFromArchive handle path s' = Returns ERR_INVALID_HANDLE s'
  ∧ CreateFileInArchive handle path file_size s' = Returns ERR_INVALID_HANDLE s'
  ∧ CreateDirectoryFromArchive handle path s' = Returns ERR_INVALID_HANDLE s'
  ∧ OpenDirectoryFromArchive handle path s' = Returns (Failed ERR_INVALID_HANDLE) s'
  ∧ CloseArchive handle s' = Returns ERR_INVALID_HANDLE s'
  ∧ RenameFileBetweenArchives handle path other path' s'
    = Returns ERR_INVALID_HANDLE s'
  ∧ RenameFileBetweenArchives other path handle path' s'
    = Returns ERR_INVALID_HANDLE s'
  ∧ RenameDirectoryBetweenArchives handle path other path' s'
    = Returns ERR_INVALID_HANDLE s'
  ∧ RenameDirectoryBetweenArchives other path handle path' s'
    = Returns ERR_INVALID_HANDLE s'.
Proof.
  intros Hclose.
  assert (GetArchive s' handle = None) as Hgone.
  { unfold CloseArchive in Hclose. unfold GetArchive.
    destruct (handle_map s !! handle); [|done].
    injection Hclose as <-. simpl. apply lookup_delete_eq. }
  unfold OpenFileFromArchive, DeleteFileFromArchive, DeleteDirectoryFromArchive,
    CreateFileInArchive, CreateDirectoryFromArchive, OpenDirectoryFromArchive,
    RenameFileBetweenArchives, RenameDirectoryBetweenArchives, CloseArchive.
  rewrite Hgone. unfold GetArchive in Hgone. rewrite Hgone.
  repeat split; by destruct (GetArchive s' other).
Qed.

(** X13.  Whenever one of the maintenance operations returns, the
    registry, the handle table and the counter are as it found them:
    whatever it did is in the world behind the backends. *)
Theorem maintenance_keeps_tables s (handle dest : ArchiveHandle) (path path' : Path)
    (mode : Mode) (file_size : Z) (id_code : ArchiveIdCode) :
  (∀ r s', OpenFileFromArchive handle path mode s = Returns r s' → same_tables s s')
  ∧ (∀ r s', DeleteFileFromArchive handle path s = Returns r s' → same_tables s s')
  ∧ (∀ r s', DeleteDirectoryFromArchive handle path s = Returns r s' →
             same_tables s s')
  ∧ (∀ r s', CreateFileInArchive handle path file_size s = Returns r s' →
             same_tables s s')
  ∧ (∀ r s', CreateDirectoryFromArchive handle path s = Returns r s' →
             same_tables s s')
  ∧ (∀ r s', OpenDirectoryFromArchive handle path s = Returns r s' →
             same_tables s s')
  ∧ (∀ r s', RenameFileBetweenArchives handle path dest path' s = Returns r s' →
             same_tables s s')
  ∧ (∀ r s', RenameDirectoryBetweenArchives handle path dest path' s = Returns r s' →
             same_tables s s')
  ∧ (∀ r s', FormatArchive id_code path s = Returns r s' → same_tables s s').
Proof.
  unfold OpenFileFromArchive, DeleteFileFromArchive, DeleteDirectoryFromArchive,
    CreateFileInArchive, CreateDirectoryFromArchive, OpenDirectoryFromArchive,
    RenameFileBetweenArchives, RenameDirectoryBetweenArchives, FormatArchive.
  repeat apply conj; intros r s';
    repeat match goal with
           | |- context [match ?x with _ => _ end] => destruct x
           end;
    intros [= _ <-]; by unfold same_tables.
Qed.

(** X14.  On an open archive, [DeleteFileFromArchive],
    [DeleteDirectoryFromArchive] and [CreateDirectoryFromArchive] return
    [RESULT_SUCCESS] when the backend answers true and the error
    (NoData, FS, Canceled, Status) when it answers false;
    [CreateFileInArchive] returns the backend's own result code. *)
Theorem single_handle_results s handle (archive : ArchiveBackend World) path
    (file_size : Z) :
  GetArchive s handle = Some archive →
  result_of (DeleteFileFromArchive handle path s)
    = Some (if (ab_DeleteFile archive path (host s)).1 then RESULT_SUCCESS
            else mkResultCode ErrorDescription.NoData ErrorModule.FS
                   ErrorSummary.Canceled ErrorLevel.Status)
  ∧ result_of (DeleteDirectoryFromArchive handle path s)
    = Some (if (ab_DeleteDirectory archive path (host s)).1 then RESULT_SUCCESS
            else mkResultCode ErrorDescription.NoData ErrorModule.FS
                   ErrorSummary.Canceled ErrorLevel.Status)
  ∧ result_of (CreateDirectoryFromArchive handle path s)
    = Some (if (ab_CreateDirectory archive path (host s)).1 then RESULT_SUCCESS
            else mkResultCode ErrorDescription.NoData ErrorModule.FS
                   ErrorSummary.Canceled ErrorLevel.Status)
  ∧ result_of (CreateFileInArchive handle path file_size s)
    = Some (ab_CreateFile archive path file_size (host s)).1.
Proof.
  intros Hopen.
  unfold DeleteFileFromArchive, DeleteDirectoryFromArchive,
    CreateDirectoryFromArchive, CreateFileInArchive.
  rewrite Hopen.
  destruct (ab_DeleteFile _ _ _) as [[] ?], (ab_DeleteDirectory _ _ _) as [[] ?],
    (ab_CreateDirectory _ _ _) as [[] ?], (ab_CreateFile _ _ _ _) as [? ?]; done.
Qed.

(** X15.  On an open archive, [OpenFileFromArchive] wraps the backend's
    file in a new resource carrying the path asked for, and
    [OpenDirectoryFromArchive] does the same for a directory.  When the
    backend has nothing to open (a null pointer) the two report different
    errors: (FS_NotFound, FS, NotFound, Status) for a file, (NotFound, FS,
    NotFound, Permanent) for a directory. *)
Theorem open_from_archive_results s handle (archive : ArchiveBackend World) path
    (mode : Mode) :
  GetArchive s handle = Some archive →
  result_of (OpenFileFromArchive handle path mode s)
    = Some (match (ab_OpenFile archive path mode (host s)).1 with
            | Some backend =>
                MakeResult {| file_path := path; priority := 0;
                              file_backend := backend |}
            | None =>
                Failed (mkResultCode ErrorDescription.FS_NotFound ErrorModule.FS
                          ErrorSummary.NotFound ErrorLevel.Status)
            end)
  ∧ result_of (OpenDirectoryFromArchive handle path s)
    = Some (match (ab_OpenDirectory archive path (host s)).1 with
            | Some backend =>
                MakeResult {| directory_path := path; directory_backend := backend |}
            | None =>
                Failed (mkResultCode ErrorDescription.NotFound ErrorModule.FS
                          ErrorSummary.NotFound ErrorLevel.Permanent)
            end).
Proof.
  intros Hopen. unfold OpenFileFromArchive, OpenDirectoryFromArchive.
  rewrite Hopen.
  by destruct (ab_OpenFile _ _ _ _) as [[] ?], (ab_OpenDirectory _ _ _) as [[] ?].
Qed.

(** X16.  A rename between a handle and itself is never refused as
    unsupported: on an open archive it is [RESULT_SUCCESS] when the backend's
    rename answers true and the error (NoData, FS, NothingHappened, Status)
    when it answers false. *)
Theorem rename_within_one_handle s handle (archive : ArchiveBackend World)
    (src_path dest_path : Path) :
  GetArchive s handle = Some archive →
  result_of (RenameFileBetweenArchives handle src_path handle dest_path s)
    = Some (if (ab_RenameFile archive src_path dest_path (host s)).1
            then RESULT_SUCCESS
            else mkResultCode ErrorDescription.NoData ErrorModule.FS
                   ErrorSummary.NothingHappened ErrorLevel.Status)
  ∧ result_of (RenameDirectoryBetweenArchives handle src_path handle dest_path s)
    = Some (if (ab_RenameDirectory archive src_path dest_path (host s)).1
            then RESULT_SUCCESS
            else mkResultCode ErrorDescription.NoData ErrorModule.FS
                   ErrorSummary.NothingHappened ErrorLevel.Status).
Proof.
  intros Hopen. unfold RenameFileBetweenArchives, RenameDirectoryBetweenArchives.
  rewrite Hopen. unfold same_object. rewrite bool_decide_eq_true_2 by done.
  by destruct (ab_RenameFile _ _ _ _) as [[] ?],
    (ab_RenameDirectory _ _ _ _) as [[] ?].
Qed.

End ArchiveOperationsExtras.

(** * Further properties of the registry and of initialisation *)

Section RegistryExtras.
Context {World : Type}.
Implicit Types (s : FS World) (b : Boot World) (factory : ArchiveFactory World)
  (id_code : ArchiveIdCode).

Lemma RegisterArchiveType_fresh factory id_code s :
  id_code_map s !! id_code = None →
  RegisterArchiveType factory id_code s
  = Returns RESULT_SUCCESS
      (with_id_code_map s (<[id_code := factory]> (id_code_map s))).
Proof. unfold RegisterArchiveType, emplace. by intros ->. Qed.

Lemma RegisterArchiveType_taken factory id_code s :
  is_Some (id_code_map s !! id_code) →
  RegisterArchiveType factory id_code s
  = Aborts "Tried to register more than one archive with same id code" s.
Proof.
  unfold RegisterArchiveType, emplace. intros [old ->].
  by rewrite with_id_code_map_id.
Qed.

Lemma RegisterArchiveType_grows factory id_code s r s' k :
  RegisterArchiveType factory id_code s = Returns r s' →
  is_Some (id_code_map s !! k) → is_Some (id_code_map s' !! k).
Proof.
  unfold RegisterArchiveType, emplace.
  destruct (id_code_map s !! id_code) eqn:Hfree; [done|].
  intros [= _ <-] Hk. simpl. rewrite lookup_insert_is_Some.
  destruct (decide (id_code = k)); eauto.
Qed.

(** X17.  Registration and lookup compose: after [RegisterArchiveType] on a
    free id code, [FormatArchive] of that code runs the factory just
    registered, every other id code resolves as before, the handle table,
    the counter and the world are untouched, and registering the same code
    once more stops at the assertion without replacing the factory. *)
Theorem register_then_lookup s factory id_code (path : Path) :
  id_code_map s !! id_code = None →
  ∃ s1,
    RegisterArchiveType factory id_code s = Returns RESULT_SUCCESS s1
    ∧ FormatArchive id_code path s1
      = Returns (af_Format factory path (host s)).1
                (with_host s1 (af_Format factory path (host s)).2)
    ∧ (∀ other, other ≠ id_code → id_code_map s1 !! other = id_code_map s !! other)
    ∧ handle_map s1 = handle_map s
    ∧ next_handle s1 = next_handle s
    ∧ host s1 = host s
    ∧ ∀ factory',
        RegisterArchiveType factory' id_code s1
        = Aborts "Tried to register more than one archive with same id code" s1
        ∧ id_code_map s1 !! id_code = Some factory.
Proof.
  intros Hfree. eexists. split; [by apply RegisterArchiveType_fresh|].
  unfold FormatArchive. simpl. rewrite lookup_insert_eq.
  destruct (af_Format factory path (host s)) as [code w]. simpl.
  split; [done|]. split; [intros other Hne; by rewrite lookup_insert_ne|].
  split; [done|]. split; [done|]. split; [done|].
  intros factory'. split; [|done].
  apply RegisterArchiveType_taken. simpl. rewrite lookup_insert_eq. by eexists.
Qed.

Lemma bind_run {A B} (m : M World A) (k : A → M World B) s a s1 :
  m s = Returns a s1 → bind World m k s = k a s1.
Proof. unfold bind. by intros ->. Qed.

Lemma call_host_run {A} (f : World → A * World) s :
  call_host World f s = Returns (f (host s)).1 (with_host s (f (host s)).2).
Proof. unfold call_host. by destruct (f (host s)). Qed.

Lemma register_if_initialized_run (init : World → bool * World) factory id_code s :
  id_code_map s !! id_code = None →
  register_if_initialized World init factory id_code s
  = Returns ()
      (if (init (host s)).1
       then with_id_code_map (with_host s (init (host s)).2)
              (<[id_code := factory]> (id_code_map s))
       else with_host s (init (host s)).2).
Proof.
  intros Hfree. unfold register_if_initialized, mbind, M_bind, mret, M_ret, ret.
  rewrite (bind_run _ _ _ _ _ (call_host_run init s)).
  destruct (init (host s)) as [[] w]; simpl; [|done].
  by rewrite (bind_run _ _ _ _ _
                (RegisterArchiveType_fresh factory id_code (with_host s w) Hfree)).
Qed.

(** What [ArchiveInit] does on an empty registry, step by step. *)
Lemma ArchiveInit_empty_registry_run b s :
  id_code_map s = ∅ →
  ∃ s',
    ArchiveInit b s = Returns () s'
    ∧ next_handle s' = 1
    ∧ handle_map s' = handle_map s
    ∧ id_code_map s' !! SaveData = Some (savedata_factory World b)
    ∧ id_code_map s' !! SaveDataCheck = Some (savedatacheck_factory World b)
    ∧ id_code_map s' !! SystemSaveData = Some (systemsavedata_factory World b)
    ∧ id_code_map s' !! RomFS = None
    ∧ id_code_map s' !! SDMC
      = (if (sdmc_Initialize World b (AddService World b (host s)).2).1
         then Some (sdmc_factory World b) else None)
    ∧ id_code_map s' !! ExtSaveData
      = (if (extsavedata_Initialize World b
               (sdmc_Initialize World b (AddService World b (host s)).2).2).1
         then Some (extsavedata_factory World b) else None)
    ∧ id_code_map s' !! SharedExtSaveData
      = (if (sharedextsavedata_Initialize World b
               (extsavedata_Initialize World b
                  (sdmc_Initialize World b (AddService World b (host s)).2).2).2).1
         then Some (sharedextsavedata_factory World b) else None).
Proof.
  intros Hempty. unfold ArchiveInit, mbind, M_bind, mret, M_ret, ret.
  erewrite bind_run by (unfold set_next_handle; reflexivity).
  erewrite bind_run by apply call_host_run.
  simpl. destruct (AddService World b (host s)) as [[] w1]. simpl.
  erewrite bind_run
    by (apply register_if_initialized_run; simpl; rewrite Hempty; apply lookup_empty).
  simpl. destruct (sdmc_Initialize World b w1) as [ok1 w2]. simpl.
  erewrite bind_run
    by (apply RegisterArchiveType_fresh; destruct ok1; simpl; rewrite Hempty;
        by rewrite ?lookup_insert_ne, ?lookup_empty by done).
  erewrite bind_run
    by (apply register_if_initialized_run; destruct ok1; simpl; rewrite Hempty;
        by rewrite ?lookup_insert_ne, ?lookup_empty by done).
  replace (host _) with w2 by by destruct ok1.
  destruct (extsavedata_Initialize World b w2) as [ok2 w3]. simpl.
  erewrite bind_run
    by (apply register_if_initialized_run; destruct ok1, ok2; simpl; rewrite Hempty;
        by rewrite ?lookup_insert_ne, ?lookup_empty by done).
  replace (host _) with w3 by by destruct ok1, ok2.
  destruct (sharedextsavedata_Initialize World b w3) as [ok3 w4]. simpl.
  erewrite bind_run
    by (apply RegisterArchiveType_fresh; destruct ok1, ok2, ok3; simpl; rewrite Hempty;
        by rewrite ?lookup_insert_ne, ?lookup_empty by done).
  erewrite bind_run
    by (apply RegisterArchiveType_fresh; destruct ok1, ok2, ok3; simpl; rewrite Hempty;
        by rewrite ?lookup_insert_ne, ?lookup_empty by done).
  eexists. split; [done|].
  destruct ok1, ok2, ok3; simpl; rewrite Hempty; repeat split;
    by rewrite ?lookup_insert_eq, ?lookup_insert_ne, ?lookup_empty by done.
Qed.

(** X18.  On an empty registry [ArchiveInit] never stops at an assertion:
    it returns with the counter at 1 and the handle table as it was, having
    registered SaveData, SaveDataCheck and SystemSaveData always, and SDMC,
    ExtSaveData and SharedExtSaveData exactly when the [Initialize] call of
    their factory answered true; RomFS is not registered. *)
Theorem ArchiveInit_on_empty_registry b s :
  id_code_map s = ∅ →
  ∃ s',
    ArchiveInit b s = Returns () s'
    ∧ next_handle s' = 1
    ∧ handle_map s' = handle_map s
    ∧ id_code_map s' !! SaveData = Some (savedata_factory World b)
    ∧ id_code_map s' !! SaveDataCheck = Some (savedatacheck_factory World b)
    ∧ id_code_map s' !! SystemSaveData = Some (systemsavedata_factory World b)
    ∧ id_code_map s' !! RomFS = None
    ∧ id_code_map s' !! SDMC
      = (if (sdmc_Initialize World b (AddService World b (host s)).2).1
         then Some (sdmc_factory World b) else None)
    ∧ id_code_map s' !! ExtSaveData
      = (if (extsavedata_Initialize World b
               (sdmc_Initialize World b (AddService World b (host s)).2).2).1
         then Some (extsavedata_factory World b) else None)
    ∧ id_code_map s' !! SharedExtSaveData
      = (if (sharedextsavedata_Initialize World b
               (extsavedata_Initialize World b
                  (sdmc_Initialize World b (AddService World b (host s)).2).2).2).1
         then Some (sharedextsavedata_factory World b) else None).
Proof. apply ArchiveInit_empty_registry_run. Qed.

Lemma bind_Aborts {A B} (m : M World A) (k : A → M World B) s msg s1 :
  m s = Aborts msg s1 → bind World m k s = Aborts msg s1.
Proof. unfold bind. by intros ->. Qed.

Lemma register_if_initialized_grows init factory id_code s r s' k :
  register_if_initialized World init factory id_code s = Returns r s' →
  is_Some (id_code_map s !! k) → is_Some (id_code_map s' !! k).
Proof.
  unfold register_if_initialized, mbind, M_bind, mret, M_ret, ret.
  intros (ok & s1 & Hcall & Hrest)%bind_Returns Hk.
  assert (id_code_map s1 = id_code_map s) as Hsame.
  { unfold call_host in Hcall. destruct (init (host s)). by injection Hcall as _ <-. }
  rewrite <- Hsame in Hk. destruct ok.
  - apply bind_Returns in Hrest as (? & s2 & Hreg & [= _ <-]).
    by eapply RegisterArchiveType_grows.
  - by injection Hrest as _ <-.
Qed.

(** After [ArchiveInit] has returned, SaveData is registered. *)
Lemma ArchiveInit_registers_SaveData b s s' :
  ArchiveInit b s = Returns () s' → is_Some (id_code_map s' !! SaveData).
Proof.
  unfold ArchiveInit, mbind, M_bind, mret, M_ret, ret. intros Hinit.
  apply bind_Returns in Hinit as (? & s1 & _ & Hinit).
  apply bind_Returns in Hinit as (? & s2 & _ & Hinit).
  apply bind_Returns in Hinit as (? & s3 & _ & Hinit).
  apply bind_Returns in Hinit as (? & s4 & H4 & Hinit).
  apply bind_Returns in Hinit as (? & s5 & H5 & Hinit).
  apply bind_Returns in Hinit as (? & s6 & H6 & Hinit).
  apply bind_Returns in Hinit as (? & s7 & H7 & Hinit).
  apply bind_Returns in Hinit as (? & s8 & H8 & [= <-]).
  eapply RegisterArchiveType_grows; [exact H8|].
  eapply RegisterArchiveType_grows; [exact H7|].
  eapply register_if_initialized_grows; [exact H6|].
  eapply register_if_initialized_grows; [exact H5|].
  unfold RegisterArchiveType, emplace in H4.
  destruct (id_code_map s3 !! SaveData); [done|].
  injection H4 as _ <-. simpl. rewrite lookup_insert_eq. by eexists.
Qed.

(** With SaveData registered, [ArchiveInit] stops at an assertion. *)
Lemma ArchiveInit_aborts_on_SaveData b s :
  is_Some (id_code_map s !! SaveData) →
  ∃ s', ArchiveInit b s
        = Aborts "Tried to register more than one archive with same id code" s'.
Proof.
  intros Hreg. unfold ArchiveInit, mbind, M_bind, mret, M_ret, ret.
  erewrite bind_run by (unfold set_next_handle; reflexivity).
  erewrite bind_run by apply call_host_run.
  set (s2 := with_host _ _).
  assert (is_Some (id_code_map s2 !! SaveData)) as Hreg2 by done.
  clearbody s2.
  destruct (register_if_initialized World (sdmc_Initialize World b)
              (sdmc_factory World b) SDMC s2) as [[] s3|msg s3|] eqn:Hsdmc.
  - rewrite (bind_run _ _ _ _ _ Hsdmc).
    eapply register_if_initialized_grows in Hreg2; [|exact Hsdmc].
    eexists. apply bind_Aborts. by apply RegisterArchiveType_taken.
  - exists s3. rewrite (bind_Aborts _ _ _ _ _ Hsdmc). f_equal.
    unfold register_if_initialized, mbind, M_bind, mret, M_ret, ret, bind in Hsdmc.
    rewrite call_host_run in Hsdmc.
    destruct (sdmc_Initialize World b (host s2)).1; [|done].
    unfold RegisterArchiveType in Hsdmc.
    destruct (emplace _ _ _) as [? []]; [done|]. by injection Hsdmc as <- _.
  - exfalso.
    unfold register_if_initialized, mbind, M_bind, mret, M_ret, ret, bind in Hsdmc.
    rewrite call_host_run in Hsdmc.
    destruct (sdmc_Initialize World b (host s2)).1; [|done].
    unfold RegisterArchiveType in Hsdmc. by destruct (emplace _ _ _) as [? []].
Qed.

(** X19.  [ArchiveInit] cannot be run twice: once it has returned, another
    [ArchiveInit] (with any factories) stops at the duplicate-registration
    assertion, because the registry is never emptied in between. *)
Theorem ArchiveInit_twice_aborts b b' s s1 :
  ArchiveInit b s = Returns () s1 →
  ∃ s2, ArchiveInit b' s1
        = Aborts "Tried to register more than one archive with same id code" s2.
Proof.
  intros Hinit. apply ArchiveInit_aborts_on_SaveData.
  by eapply ArchiveInit_registers_SaveData.
Qed.

End RegistryExtras.

Section ShutdownExtras.
Context {World : Type} `{BackendOperations World}.
Implicit Types (s : FS World).

(** [ArchiveShutdown] can always run. *)
Lemma ArchiveShutdown_possible s : ∃ s', ArchiveShutdown s s'.
Proof. eexists. by eapply (shutdown_clears World s). Qed.

(** X20.  After [ArchiveShutdown] no handle resolves and no archive type
    is registered: [CloseArchive] fails with [ERR_INVALID_HANDLE] for every
    handle, [OpenArchive] with the NotFound error and [FormatArchive] with
    the Unimplemented error for every id code.  The handle counter is not
    reset by the shutdown, and a following [ArchiveInit] returns without
    stopping at an assertion and sets the counter back to 1. *)
Theorem after_shutdown s s' :
  ArchiveShutdown s s' →
  (∀ handle, GetArchive s' handle = None
             ∧ CloseArchive handle s' = Returns ERR_INVALID_HANDLE s')
  ∧ (∀ id_code path,
       OpenArchive id_code path s'
       = Returns (Failed (mkResultCode ErrorDescription.NotFound ErrorModule.FS
                            ErrorSummary.NotFound ErrorLevel.Permanent)) s'
       ∧ FormatArchive id_code path s'
         = Returns (UnimplementedFunction ErrorModule.FS) s')
  ∧ next_handle s' = next_handle s
  ∧ ∀ b, ∃ s'', ArchiveInit b s' = Returns () s''
                ∧ next_handle s'' = 1
                ∧ handle_map s'' = ∅.
Proof.
  intros Hshutdown. destruct Hshutdown as [s backends factories _ _].
  split; [|split; [|split]].
  - intros handle. unfold GetArchive, CloseArchive. simpl.
    by rewrite lookup_empty.
  - intros id_code path. unfold OpenArchive, FormatArchive. simpl.
    by rewrite lookup_empty.
  - done.
  - intros b.
    destruct (ArchiveInit_empty_registry_run b
                {| id_code_map := ∅; handle_map := ∅; next_handle := next_handle s;
                   host := foldl (λ w factory, af_destroy factory w)
                             (foldl (λ w backend, ab_destroy backend w) (host s)
                                backends) factories |} eq_refl)
      as (s'' & Hinit & Hnext & Hmap & _).
    by exists s''.
Qed.

End ShutdownExtras.

Section IssuedExtras.
Context {World : Type}.
Implicit Types (s : FS World) (b : Boot World).

Lemma counter_above_handles_same_tables s s' :
  same_tables s s' → counter_above_handles s → counter_above_handles s'.
Proof.
  unfold same_tables, counter_above_handles. intros (_ & -> & ->). done.
Qed.

(** As long as fewer than 2^64-1 handles have been issued, the counter is
    one above their number and above every handle in the table. *)
Lemma Issued_counter b n s :
  Issued b n s → Z.of_nat n < 2 ^ 64 - 1 →
  counter_above_handles s ∧ next_handle s = Z.of_nat n + 1.
Proof.
  induction 1 as [w s Hinit
                 |n s id_code path handle s' _ IH Hopen
                 |n s id_code path code s' _ IH Hopen
                 |n s handle r s' _ IH Hclose
                 |n s s' _ IH Hsame]; intros Hn.
  - split; [by eapply ArchiveInit_counter_above_handles|].
    by apply ArchiveInit_table in Hinit as [-> _].
  - destruct IH as [Hinv Hnext]; [lia|].
    destruct (OpenArchive_counter_above_handles _ _ _ _ _ Hinv Hopen)
      as (-> & _ & Hinv').
    apply OpenArchive_success in Hopen as (_ & _ & Hnext' & _).
    split; [apply Hinv'; lia|].
    rewrite Hnext', u64_small by lia. lia.
  - destruct IH as [Hinv Hnext]; [done|].
    apply OpenArchive_failure in Hopen as [Hnext' Hmap'].
    split; [|congruence].
    unfold counter_above_handles. by rewrite Hnext', Hmap'.
  - destruct IH as [Hinv Hnext]; [done|].
    split; [by eapply CloseArchive_counter_above_handles|].
    unfold CloseArchive in Hclose.
    destruct (handle_map s !! handle); by injection Hclose as _ <-.
  - destruct IH as [Hinv Hnext]; [done|].
    split; [by eapply counter_above_handles_same_tables|].
    destruct Hsame as (_ & _ & ->). done.
Qed.

(** X21.  Handles are issued in order and are not reused: after
    [ArchiveInit], when [n] calls of [OpenArchive] have succeeded (with any
    failed opens, closes and maintenance operations in between, and fewer
    than 2^64-1 in all), the next successful [OpenArchive] returns handle
    [n + 1], which is above every handle still in the table. *)
Theorem next_open_returns_count b n s id_code (path : Path) handle s' :
  Issued b n s →
  Z.of_nat n < 2 ^ 64 - 1 →
  OpenArchive id_code path s = Returns (MakeResult handle) s' →
  handle = Z.of_nat n + 1
  ∧ (∀ k, is_Some (GetArchive s k) → 0 < k < handle)
  ∧ Issued b (S n) s'.
Proof.
  intros Hissued Hn Hopen.
  destruct (Issued_counter _ _ _ Hissued Hn) as [Hinv Hnext].
  destruct (OpenArchive_counter_above_handles _ _ _ _ _ Hinv Hopen) as (-> & _ & _).
  split; [done|]. split; [apply Hinv|].
  by eapply issued_open.
Qed.

End IssuedExtras.

Section OpenedResourceExtras.
Context {World : Type} `{BackendOperations World} `{ResultEncoding} `{Kernel World}.
Implicit Types (s : FS World) (path : Path).

(** X22.  A file resource that [OpenFileFromArchive] has just returned
    carries the path it was opened with and answers a GetPriority request
    with priority 0 and the success status. *)
Theorem opened_file_has_priority_zero s (handle : ArchiveHandle) path (mode : Mode)
    (file : File World) s' (get_buff : CommandBuffer) (w : World) :
  OpenFileFromArchive handle path mode s = Returns (MakeResult file) s' →
  get_buff 0%nat = FileCommand.code FileCommand.GetPriority →
  file_path file = path
  ∧ sync_cmd_buff (File_SyncRequest file get_buff w) 2%nat = 0
  ∧ sync_cmd_buff (File_SyncRequest file get_buff w) 1%nat = raw RESULT_SUCCESS
  ∧ sync_world (File_SyncRequest file get_buff w) = w.
Proof.
  intros Hopen Hget. unfold OpenFileFromArchive in Hopen.
  destruct (GetArchive s handle) as [archive|]; [|done].
  destruct (ab_OpenFile archive path mode (host s)) as [[backend|] w1]; [|done].
  injection Hopen as <- _.
  unfold File_SyncRequest. rewrite Hget, FileCommand_of_word_code. simpl.
  repeat split; by read_back.
Qed.

(** X23.  The handle a successful [OpenArchive] returns stands for the
    backend the factory opened: operations on that handle are calls of that
    backend, in the world the factory's [Open] left behind. *)
Theorem opened_handle_reaches_backend s (id_code : ArchiveIdCode) path
    (factory : ArchiveFactory World) (backend : ArchiveBackend World) (w : World)
    (handle : ArchiveHandle) s1 (name : Path) (file_size : Z) :
  id_code_map s !! id_code = Some factory →
  af_Open factory path (host s) = (MakeResult backend, w) →
  OpenArchive id_code path s = Returns (MakeResult handle) s1 →
  GetArchive s1 handle = Some backend
  ∧ host s1 = w
  ∧ CreateFileInArchive handle name file_size s1
    = Returns (ab_CreateFile backend name file_size w).1
              (with_host s1 (ab_CreateFile backend name file_size w).2)
  ∧ result_of (DeleteFileFromArchive handle name s1)
    = Some (if (ab_DeleteFile backend name w).1 then RESULT_SUCCESS
            else mkResultCode ErrorDescription.NoData ErrorModule.FS
                   ErrorSummary.Canceled ErrorLevel.Status).
Proof.
  intros Hreg Hfactory Hopen. unfold OpenArchive in Hopen.
  rewrite Hreg, Hfactory in Hopen.
  destruct (skip_used_handles _ _ _) as [h|]; [|done].
  injection Hopen as -> <-.
  unfold CreateFileInArchive, DeleteFileFromArchive, GetArchive. simpl.
  rewrite lookup_insert_eq.
  destruct (ab_CreateFile _ _ _ _), (ab_DeleteFile _ _ _) as [[] ?]; done.
Qed.

End OpenedResourceExtras.

(** * The further properties, run on the scenario *)

Section DispatchExtraWitnesses.
Import Scenario.

Lemma directory_dispatch_frame_witness :
  0%nat ≠ 1%nat ∧ 0%nat ≠ 2%nat
  ∧ sync_cmd_buff
      (Directory_SyncRequest a_directory (buffer_of [0x08010042; 5; 0; 0x2000]) [])
      0%nat = 0x08010042.
Proof.
  assert (0%nat ≠ 1%nat) as H1 by discriminate.
  assert (0%nat ≠ 2%nat) as H2 by discriminate.
  split; [exact H1|]. split; [exact H2|].
  rewrite (directory_dispatch_frame a_directory
             (buffer_of [0x08010042; 5; 0; 0x2000]) [] 0%nat H1 H2).
  reflexivity.
Defined.

(** SetPriority 42, then a Read and a Flush, then GetPriority. *)
Lemma priority_round_trip_witness :
  buffer_of [0x080A0040; 42] 0%nat = FileCommand.code FileCommand.SetPriority
  ∧ buffer_of [0x080B0000] 0%nat = FileCommand.code FileCommand.GetPriority
  ∧ Forall (λ cmd_buff : CommandBuffer,
              cmd_buff 0%nat ≠ FileCommand.code FileCommand.SetPriority)
      [buffer_of [0x080200C2; 0; 0; 4; 0; 0x1000]; buffer_of [0x08090000]]
  ∧ sync_cmd_buff
      (File_SyncRequest
         (File_SyncRequests
            [buffer_of [0x080A0040; 42];
             buffer_of [0x080200C2; 0; 0; 4; 0; 0x1000]; buffer_of [0x08090000]]
            a_file []).1
         (buffer_of [0x080B0000])
         (File_SyncRequests
            [buffer_of [0x080A0040; 42];
             buffer_of [0x080200C2; 0; 0; 4; 0; 0x1000]; buffer_of [0x08090000]]
            a_file []).2) 2%nat = 42.
Proof.
  assert (Forall (λ cmd_buff : CommandBuffer,
                    cmd_buff 0%nat ≠ FileCommand.code FileCommand.SetPriority)
            [buffer_of [0x080200C2; 0; 0; 4; 0; 0x1000]; buffer_of [0x08090000]])
    as Hbetween by (repeat constructor; discriminate).
  split; [reflexivity|]. split; [reflexivity|]. split; [exact Hbetween|].
  destruct (priority_round_trip a_file [] (buffer_of [0x080A0040; 42])
              (buffer_of [0x080B0000]) _ eq_refl eq_refl Hbetween) as [-> _].
  reflexivity.
Defined.

(** A file of 2^32 + 5 bytes: low word 5, high word 1. *)
Lemma get_size_then_set_size_witness :
  buffer_of [0x08040000] 0%nat = FileCommand.code FileCommand.GetSize
  ∧ fb_GetSize (file_of_size 0x100000005) [] = (0x100000005, ["GetSize"%string])
  ∧ 0 ≤ 0x100000005 < 2 ^ 64
  ∧ buffer_of [0x08050080; 5; 1] 0%nat = FileCommand.code FileCommand.SetSize
  ∧ sync_cmd_buff
      (File_SyncRequest (new_File (file_of_size 0x100000005) EmptyPath)
         (buffer_of [0x08040000]) []) 2%nat = 5
  ∧ sync_cmd_buff
      (File_SyncRequest (new_File (file_of_size 0x100000005) EmptyPath)
         (buffer_of [0x08040000]) []) 3%nat = 1
  ∧ sync_world
      (File_SyncRequest (new_File (file_of_size 0x100000005) EmptyPath)
         (buffer_of [0x08050080; 5; 1]) ["GetSize"%string])
    = ["SetSize"%string; "GetSize"%string].
Proof.
  assert (0 ≤ 0x100000005 < 2 ^ 64) as Hrange by lia.
  destruct (get_size_then_set_size (new_File (file_of_size 0x100000005) EmptyPath)
              [] ["GetSize"%string] 0x100000005
              (buffer_of [0x08040000]) (buffer_of [0x08050080; 5; 1])
              eq_refl eq_refl Hrange eq_refl eq_refl eq_refl)
    as (Hlo & Hhi & _ & _ & Hset & _).
  rewrite Hlo, Hhi, Hset. repeat split; try reflexivity; lia.
Defined.

Lemma write_request_witness :
  buffer_of [0x08030102; 4; 0; 100; 1; 0; 0x1000] 0%nat
    = FileCommand.code FileCommand.Write
  ∧ 0 ≤ buffer_of [0x08030102; 4; 0; 100; 1; 0; 0x1000] 1%nat < 2 ^ 32
  ∧ 0 ≤ buffer_of [0x08030102; 4; 0; 100; 1; 0; 0x1000] 2%nat < 2 ^ 32
  ∧ fb_Write (file_backend a_file) (4 + 2 ^ 32 * 0) 100 1 0x1000 []
    = (100, ["Write"%string])
  ∧ 0 ≤ 100 < 2 ^ 32
  ∧ sync_cmd_buff
      (File_SyncRequest a_file
         (buffer_of [0x08030102; 4; 0; 100; 1; 0; 0x1000]) []) 2%nat = 100
  ∧ sync_world
      (File_SyncRequest a_file
         (buffer_of [0x08030102; 4; 0; 100; 1; 0; 0x1000]) [])
    = ["Write"%string].
Proof.
  assert (0 ≤ buffer_of [0x08030102; 4; 0; 100; 1; 0; 0x1000] 1%nat < 2 ^ 32)
    as Hlo by (unfold buffer_of; simpl; lia).
  assert (0 ≤ buffer_of [0x08030102; 4; 0; 100; 1; 0; 0x1000] 2%nat < 2 ^ 32)
    as Hhi by (unfold buffer_of; simpl; lia).
  assert (0 ≤ 100 < 2 ^ 32) as Hn by lia.
  destruct (write_request a_file
              (buffer_of [0x08030102; 4; 0; 100; 1; 0; 0x1000]) []
              ["Write"%string] 100 eq_refl Hlo Hhi eq_refl Hn)
    as (Hc & _ & _ & _ & Hw).
  rewrite Hc, Hw. repeat split; try reflexivity; lia.
Defined.

(** A read at offset 4 + 2^32 of a 10-byte file: nothing is left to read. *)
Lemma read_request_witness :
  buffer_of [0x080200C2; 4; 1; 100; 0; 0x1000] 0%nat
    = FileCommand.code FileCommand.Read
  ∧ 0 ≤ buffer_of [0x080200C2; 4; 1; 100; 0; 0x1000] 1%nat < 2 ^ 32
  ∧ 0 ≤ buffer_of [0x080200C2; 4; 1; 100; 0; 0x1000] 2%nat < 2 ^ 32
  ∧ sync_cmd_buff
      (File_SyncRequest a_file (buffer_of [0x080200C2; 4; 1; 100; 0; 0x1000]) [])
      2%nat = 0
  ∧ sync_cmd_buff
      (File_SyncRequest a_file (buffer_of [0x080200C2; 4; 1; 100; 0; 0x1000]) [])
      3%nat = 100.
Proof.
  assert (0 ≤ buffer_of [0x080200C2; 4; 1; 100; 0; 0x1000] 1%nat < 2 ^ 32)
    as Hlo by (unfold buffer_of; simpl; lia).
  assert (0 ≤ buffer_of [0x080200C2; 4; 1; 100; 0; 0x1000] 2%nat < 2 ^ 32)
    as Hhi by (unfold buffer_of; simpl; lia).
  destruct (read_request a_file (buffer_of [0x080200C2; 4; 1; 100; 0; 0x1000]) []
              eq_refl Hlo Hhi) as (_ & Hc & Hlen & _).
  rewrite Hc, Hlen. repeat split; try reflexivity; unfold buffer_of; simpl; lia.
Defined.

(** Five entries asked of a directory that has three. *)
Lemma directory_read_request_witness :
  buffer_of [0x08010042; 5; 0; 0x2000] 0%nat
    = DirectoryCommand.code DirectoryCommand.Read
  ∧ db_Read (directory_backend a_directory) 5 0x2000 [] = (3, ["Read"%string])
  ∧ 0 ≤ 3 < 2 ^ 32
  ∧ sync_cmd_buff
      (Directory_SyncRequest a_directory (buffer_of [0x08010042; 5; 0; 0x2000]) [])
      2%nat = 3
  ∧ sync_cmd_buff
      (Directory_SyncRequest a_directory (buffer_of [0x08010042; 5; 0; 0x2000]) [])
      1%nat = 0.
Proof.
  assert (0 ≤ 3 < 2 ^ 32) as Hn by lia.
  destruct (directory_read_request a_directory
              (buffer_of [0x08010042; 5; 0; 0x2000]) [] ["Read"%string] 3
              eq_refl eq_refl Hn) as (Hc & Hs & _).
  rewrite Hc, Hs. repeat split; try reflexivity; lia.
Defined.

Lemma open_link_file_request_witness :
  buffer_of [0x080C0000] 0%nat = FileCommand.code FileCommand.OpenLinkFile
  ∧ sync_cmd_buff (File_SyncRequest a_file (buffer_of [0x080C0000]) []) 3%nat = 0x20
  ∧ sync_cmd_buff (File_SyncRequest a_file (buffer_of [0x080C0000]) []) 1%nat = 0
  ∧ sync_self (File_SyncRequest a_file (buffer_of [0x080C0000]) []) = a_file.
Proof.
  destruct (open_link_file_request a_file (buffer_of [0x080C0000]) [] eq_refl)
    as (_ & Hs & Hf & _ & Hh).
  rewrite Hs, Hf, Hh. repeat split; reflexivity.
Defined.

End DispatchExtraWitnesses.

Section ArchiveExtraWitnesses.
Import Scenario ScenarioOps.

Lemma missing_handle_is_invalid_witness :
  GetArchive (three_archives 4) 9 = None
  ∧ OpenFileFromArchive 9 (TextPath "/save.bin") 1 (three_archives 4)
    = Returns (Failed ERR_INVALID_HANDLE) (three_archives 4)
  ∧ CreateFileInArchive 9 (TextPath "/new.bin") 128 (three_archives 4)
    = Returns ERR_INVALID_HANDLE (three_archives 4).
Proof.
  destruct (missing_handle_is_invalid (three_archives 4) 9 (TextPath "/save.bin")
              1 128 eq_refl) as (Hopen & _).
  destruct (missing_handle_is_invalid (three_archives 4) 9 (TextPath "/new.bin")
              1 128 eq_refl) as (_ & _ & _ & Hcreate & _).
  split; [reflexivity|]. split; [exact Hopen|exact Hcreate].
Defined.

Lemma closed_handle_is_invalid_witness :
  ∃ s',
    CloseArchive 1 (three_archives 4) = Returns RESULT_SUCCESS s'
    ∧ OpenFileFromArchive 1 (TextPath "/save.bin") 1 s'
      = Returns (Failed ERR_INVALID_HANDLE) s'
    ∧ RenameFileBetweenArchives 2 (TextPath "/a") 1 (TextPath "/b") s'
      = Returns ERR_INVALID_HANDLE s'
    ∧ CloseArchive 1 s' = Returns ERR_INVALID_HANDLE s'.
Proof.
  eexists. split; [reflexivity|].
  destruct (closed_handle_is_invalid (three_archives 4) _ 1 2 (TextPath "/save.bin")
              (TextPath "/b") 1 128 eq_refl) as (Hopen & _ & _ & _ & _ & _ & Hclose & _).
  destruct (closed_handle_is_invalid (three_archives 4) _ 1 2 (TextPath "/a")
              (TextPath "/b") 1 128 eq_refl) as (_ & _ & _ & _ & _ & _ & _ & _ & Hrename & _).
  split; [exact Hopen|]. split; [exact Hrename|exact Hclose].
Defined.

(** "/save.bin" deleted through handle 1: the tables are as before. *)
Lemma maintenance_keeps_tables_witness :
  ∃ s',
    DeleteFileFromArchive 1 (TextPath "/save.bin") (three_archives 4)
    = Returns RESULT_SUCCESS s'
    ∧ same_tables (three_archives 4) s'
    ∧ host s' = ["DeleteFile"%string].
Proof.
  eexists. split; [reflexivity|]. split; [|reflexivity].
  destruct (maintenance_keeps_tables (three_archives 4) 1 2 (TextPath "/save.bin")
              (TextPath "/b") 1 128 SDMC) as (_ & Hdelete & _).
  eapply Hdelete. reflexivity.
Defined.

Lemma single_handle_results_witness :
  GetArchive (three_archives 4) 1 = Some (archive_at 100 true)
  ∧ result_of (DeleteFileFromArchive 1 (TextPath "/save.bin") (three_archives 4))
    = Some RESULT_SUCCESS
  ∧ result_of (DeleteDirectoryFromArchive 1 (TextPath "/") (three_archives 4))
    = Some (mkResultCode ErrorDescription.NoData ErrorModule.FS
              ErrorSummary.Canceled ErrorLevel.Status)
  ∧ result_of (CreateFileInArchive 1 (TextPath "/save.bin") 128 (three_archives 4))
    = Some (mkResultCode ErrorDescription.NoData ErrorModule.FS
              ErrorSummary.NothingHappened ErrorLevel.Status).
Proof.
  destruct (single_handle_results (three_archives 4) 1 (archive_at 100 true)
              (TextPath "/save.bin") 128 eq_refl) as (Hdelete & _ & _ & Hcreate).
  destruct (single_handle_results (three_archives 4) 1 (archive_at 100 true)
              (TextPath "/") 128 eq_refl) as (_ & Hrmdir & _).
  split; [reflexivity|]. split; [exact Hdelete|]. split; [exact Hrmdir|exact Hcreate].
Defined.

Lemma open_from_archive_results_witness :
  GetArchive (three_archives 4) 2 = Some (archive_at 200 true)
  ∧ result_of (OpenFileFromArchive 2 (TextPath "/save.bin") 1 (three_archives 4))
    = Some (MakeResult (new_File (file_of_size 128) (TextPath "/save.bin")))
  ∧ result_of (OpenFileFromArchive 2 (TextPath "/") 1 (three_archives 4))
    = Some (Failed (mkResultCode ErrorDescription.FS_NotFound ErrorModule.FS
                      ErrorSummary.NotFound ErrorLevel.Status))
  ∧ result_of (OpenDirectoryFromArchive 2 (TextPath "/save.bin") (three_archives 4))
    = Some (Failed (mkResultCode ErrorDescription.NotFound ErrorModule.FS
                      ErrorSummary.NotFound ErrorLevel.Permanent)).
Proof.
  destruct (open_from_archive_results (three_archives 4) 2 (archive_at 200 true)
              (TextPath "/save.bin") 1 eq_refl) as (Hfile & Hdir).
  destruct (open_from_archive_results (three_archives 4) 2 (archive_at 200 true)
              (TextPath "/") 1 eq_refl) as (Hnofile & _).
  split; [reflexivity|]. split; [exact Hfile|]. split; [exact Hnofile|exact Hdir].
Defined.

Lemma rename_within_one_handle_witness :
  GetArchive (three_archives 4) 3 = Some (archive_at 300 false)
  ∧ result_of (RenameFileBetweenArchives 3 (TextPath "/a") 3 (TextPath "/b")
                 (three_archives 4))
    = Some (mkResultCode ErrorDescription.NoData ErrorModule.FS
              ErrorSummary.NothingHappened ErrorLevel.Status).
Proof.
  destruct (rename_within_one_handle (three_archives 4) 3 (archive_at 300 false)
              (TextPath "/a") (TextPath "/b") eq_refl) as (Hfile & _).
  split; [reflexivity|exact Hfile].
Defined.

Lemma register_then_lookup_witness :
  id_code_map (fs_with ∅ 1) !! SaveData = None
  ∧ ∃ s1,
      RegisterArchiveType (a_factory ERR_INVALID_HANDLE) SaveData (fs_with ∅ 1)
      = Returns RESULT_SUCCESS s1
      ∧ result_of (FormatArchive SaveData EmptyPath s1) = Some ERR_INVALID_HANDLE
      ∧ id_code_map s1 !! SDMC = Some (a_factory RESULT_SUCCESS).
Proof.
  split; [reflexivity|].
  destruct (register_then_lookup (fs_with ∅ 1) (a_factory ERR_INVALID_HANDLE)
              SaveData EmptyPath eq_refl)
    as (s1 & Hreg & Hformat & Hothers & _).
  exists s1. split; [exact Hreg|]. split.
  - rewrite Hformat. reflexivity.
  - rewrite (Hothers SDMC) by discriminate. reflexivity.
Defined.

Lemma ArchiveInit_on_empty_registry_witness :
  id_code_map (at_startup ([] : World)) = ∅
  ∧ ∃ s',
      ArchiveInit boot (at_startup []) = Returns () s'
      ∧ next_handle s' = 1
      ∧ id_code_map s' !! SDMC = Some (a_factory RESULT_SUCCESS)
      ∧ id_code_map s' !! ExtSaveData = None.
Proof.
  split; [reflexivity|].
  destruct (ArchiveInit_on_empty_registry boot (at_startup []) eq_refl)
    as (s' & Hinit & Hnext & _ & _ & _ & _ & _ & Hsdmc & Hext & _).
  exists s'. split; [exact Hinit|]. split; [exact Hnext|].
  split; [exact Hsdmc|exact Hext].
Defined.

Lemma ArchiveInit_twice_aborts_witness :
  ∃ s1 s2,
    ArchiveInit boot (at_startup []) = Returns () s1
    ∧ ArchiveInit boot s1
      = Aborts "Tried to register more than one archive with same id code" s2.
Proof.
  eexists. 
  assert (ArchiveInit boot (at_startup []) = Returns () _) as Hinit
    by (vm_compute; reflexivity).
  destruct (ArchiveInit_twice_aborts boot boot _ _ Hinit) as [s2 Habort].
  exists s2. split; [exact Hinit|exact Habort].
Defined.

Lemma after_shutdown_witness :
  ∃ s',
    ArchiveShutdown (three_archives 4) s'
    ∧ GetArchive s' 1 = None
    ∧ CloseArchive 2 s' = Returns ERR_INVALID_HANDLE s'
    ∧ next_handle s' = 4.
Proof.
  destruct (ArchiveShutdown_possible (three_archives 4)) as [s' Hshutdown].
  destruct (after_shutdown _ _ Hshutdown) as (Hhandles & _ & Hnext & _).
  exists s'. split; [exact Hshutdown|].
  split; [exact (proj1 (Hhandles 1))|]. split; [exact (proj2 (Hhandles 2))|exact Hnext].
Defined.

End ArchiveExtraWitnesses.

Section ComposedExtraWitnesses.
Import Scenario ScenarioOps.

(** [ArchiveInit], an open (handle 1), its close, another open (handle 2):
    the next open returns handle 3. *)
Lemma next_open_returns_count_witness :
  ∃ s s',
    Issued boot 2 s
    ∧ Z.of_nat 2 < 2 ^ 64 - 1
    ∧ OpenArchive SDMC EmptyPath s = Returns (MakeResult 3) s'
    ∧ 3 = Z.of_nat 2 + 1.
Proof.
  assert (∃ s0, ArchiveInit boot (at_startup []) = Returns () s0) as [s0 Hinit]
    by (eexists; vm_compute; reflexivity).
  assert (Issued boot 0 s0) as H0 by (by eapply issued_init).
  assert (Z.of_nat 0 < 2 ^ 64 - 1) as Hn0 by (simpl; lia).
  assert (Z.of_nat 1 < 2 ^ 64 - 1) as Hn1 by (simpl; lia).
  assert (Z.of_nat 2 < 2 ^ 64 - 1) as Hn2 by (simpl; lia).
  destruct (Issued_counter _ _ _ H0 Hn0) as [_ Hnext0].
  assert (id_code_map s0 !! SDMC = Some (a_factory RESULT_SUCCESS)) as Hreg0.
  { vm_compute in Hinit. injection Hinit as <-. reflexivity. }
  assert (handle_map s0 = ∅) as Hempty0.
  { by apply ArchiveInit_table in Hinit as [_ ->]. }
  destruct (Scenario_open_on_empty_table s0 Hreg0 Hempty0)
    as (s1 & b1 & Hopen1 & Hmap1 & Hnext1 & Hreg1).
  assert (Issued boot 1 s1) as H1
    by (eapply issued_open; [exact H0|exact Hopen1]).
  assert (∃ s2, CloseArchive (next_handle s0) s1 = Returns RESULT_SUCCESS s2
                ∧ handle_map s2 = ∅ ∧ id_code_map s2 = id_code_map s1)
    as (s2 & Hclose & Hempty2 & Hreg2).
  { unfold CloseArchive. rewrite Hmap1, lookup_singleton_eq.
    eexists. split; [done|]. simpl. by rewrite delete_singleton_eq. }
  assert (Issued boot 1 s2) as H1'
    by (eapply issued_close; [exact H1|exact Hclose]).
  rewrite <- Hreg1, <- Hreg2 in Hreg0.
  destruct (Scenario_open_on_empty_table s2 Hreg0 Hempty2)
    as (s3 & b3 & Hopen3 & Hmap3 & Hnext3 & Hreg3).
  assert (Issued boot 2 s3) as H2
    by (eapply issued_open; [exact H1'|exact Hopen3]).
  assert (∃ handle s4, OpenArchive SDMC EmptyPath s3 = Returns (MakeResult handle) s4)
    as (handle & s4 & Hopen4).
  { unfold OpenArchive. rewrite Hreg3, Hreg0.
    destruct (skip_used_handles_terminates (handle_map s3) (next_handle s3))
      as [h ->]; [|rewrite Hmap3, map_size_singleton; simpl; lia|simpl; by eauto].
    rewrite Hnext3. apply u64_range. }
  destruct (next_open_returns_count boot 2 s3 SDMC EmptyPath handle s4 H2 Hn2 Hopen4)
    as (Hhandle & _).
  exists s3, s4. split; [exact H2|]. split; [exact Hn2|].
  split; [|reflexivity].
  rewrite Hopen4, Hhandle. reflexivity.
Defined.

Lemma opened_file_has_priority_zero_witness :
  buffer_of [0x080B0000] 0%nat = FileCommand.code FileCommand.GetPriority
  ∧ ∃ file s',
      OpenFileFromArchive 1 (TextPath "/save.bin") 1 (three_archives 4)
      = Returns (MakeResult file) s'
      ∧ file_path file = TextPath "/save.bin"
      ∧ sync_cmd_buff (File_SyncRequest file (buffer_of [0x080B0000]) []) 2%nat = 0.
Proof.
  split; [reflexivity|].
  assert (∃ file s', OpenFileFromArchive 1 (TextPath "/save.bin") 1 (three_archives 4)
                     = Returns (MakeResult file) s') as (file & s' & Hopen)
    by (eexists _, _; reflexivity).
  destruct (opened_file_has_priority_zero _ _ _ _ _ _ (buffer_of [0x080B0000]) []
              Hopen eq_refl) as (Hpath & Hpriority & _).
  exists file, s'. split; [exact Hopen|]. split; [exact Hpath|exact Hpriority].
Defined.

(** An archive opened at handle 1, then "/save.bin" deleted through it. *)
Lemma opened_handle_reaches_backend_witness :
  id_code_map (fs_with ∅ 1) !! SDMC = Some (a_factory RESULT_SUCCESS)
  ∧ af_Open (a_factory RESULT_SUCCESS) EmptyPath (host (fs_with ∅ 1))
    = (MakeResult (archive_at 0 true), ["Open"%string])
  ∧ ∃ s1,
      OpenArchive SDMC EmptyPath (fs_with ∅ 1) = Returns (MakeResult 1) s1
      ∧ GetArchive s1 1 = Some (archive_at 0 true)
      ∧ result_of (DeleteFileFromArchive 1 (TextPath "/save.bin") s1)
        = Some RESULT_SUCCESS.
Proof.
  split; [reflexivity|]. split; [reflexivity|].
  assert (∃ s1, OpenArchive SDMC EmptyPath (fs_with ∅ 1) = Returns (MakeResult 1) s1)
    as [s1 Hopen] by (eexists; reflexivity).
  destruct (opened_handle_reaches_backend (fs_with ∅ 1) SDMC EmptyPath
              (a_factory RESULT_SUCCESS) (archive_at 0 true) ["Open"%string] 1 s1
              (TextPath "/save.bin") 128 eq_refl eq_refl Hopen)
    as (Hget & _ & _ & Hdelete).
  exists s1. split; [exact Hopen|]. split; [exact Hget|exact Hdelete].
Defined.

End ComposedExtraWitnesses.
